(** * manageLicense: the licence issuing and activation server

    A shallow embedding of [main.py] (the FastAPI server: [/admin/generate]
    and [/api/activate]) and of [manage.py] (the command-line batch tool),
    over a model of the one SQLite table [licenses] both programs share. *)

From Stdlib Require Import ZArith Ascii String.
From stdpp Require Import gmap strings list fin_maps relations pretty.

Local Open Scope string_scope.
Local Open Scope Z_scope.

(** ** The [licenses] table

    [CREATE TABLE licenses (key_str TEXT PRIMARY KEY, is_used INTEGER
    DEFAULT 0, hwid TEXT, created_at TEXT, valid_days INTEGER,
    activated_at TEXT, note TEXT)].  A row is stored under its primary key
    [key_str]; [hwid] and [activated_at] are the two columns the programs
    leave NULL on insertion. *)
Module licenses.

Record Row := mkRow {
  is_used : Z;
  hwid : option string;
  created_at : string;
  valid_days : Z;
  activated_at : option string;
  note : string
}.

End licenses.

Abbreviation Row := licenses.Row.
Abbreviation table := (gmap string Row).

(** ** Python exceptions the two programs can raise *)
Inductive exn :=
| IntegrityError                                   (* sqlite3: UNIQUE constraint failed *)
| OverflowError                                    (* sqlite3: int does not fit INTEGER *)
| OperationalError                                 (* sqlite3: database is locked *)
| HTTPException (status_code : Z) (detail : string).

Inductive outcome (A : Type) :=
| Return (a : A)
| Raise (e : exn).
Arguments Return {A} a.
Arguments Raise {A} e.

(** ** The [sqlite3] connection

    [disk] is the committed content of the database file.  The module opens
    a transaction implicitly before the first INSERT or UPDATE of a
    connection; [pending] is the content seen inside that transaction
    until [commit] publishes it.  [trace] records every call made on the
    database. *)
Module sqlite3.

Inductive db_event :=
| EvConnect
| EvCreateTable
| EvSelect (key_str : string)
| EvInsert (key_str : string)
| EvUpdate (key_str : string)
| EvCommit
| EvClose.

Record state := mkState {
  disk : table;
  pending : option table;
  trace : list db_event
}.

(** The calls the two programs make on a connection or its cursor. *)
Inductive cmd : Type -> Type :=
| Connect : cmd unit
| CreateTable : cmd unit
| SelectByKey (key_str : string) : cmd (option Row)
| InsertLicense (key_str : string) (days : Z) (now note : string) : cmd unit
| UpdateActivation (hwid now key_str : string) : cmd unit
| Commit : cmd unit
| Close : cmd unit.

(** A program is the sequence of database calls it makes, each
    continuation receiving the value the call returned. *)
Inductive prog (A : Type) : Type :=
| Ret (a : A)
| Throw (e : exn)
| Do {B : Type} (c : cmd B) (k : B -> prog A).
Arguments Ret {A} a.
Arguments Throw {A} e.
Arguments Do {A B} c k.

Fixpoint bind {A B} (m : prog A) (f : A -> prog B) : prog B :=
  match m with
  | Ret a => f a
  | Throw e => Throw e
  | Do c k => Do c (fun b => bind (k b) f)
  end.

Definition call {B} (c : cmd B) : prog B := Do c Ret.

Definition emit (ev : db_event) (s : state) : state :=
  mkState (disk s) (pending s) (trace s ++ [ev]).

(** What a statement run on the connection sees. *)
Definition view (s : state) : table := default (disk s) (pending s).

(** SQLite INTEGER is a signed 64-bit value; binding a larger Python int
    raises [OverflowError]. *)
Definition fits_int64 (z : Z) : bool :=
  (- 2 ^ 63 <=? z) && (z <? 2 ^ 63).

(** The row an INSERT of the four named columns creates: [is_used]
    takes its default 0, [hwid] and [activated_at] stay NULL. *)
Definition inserted_row (days : Z) (now note : string) : Row :=
  licenses.mkRow 0 None now days None note.

(** The row [SET is_used=1, hwid=?, activated_at=?] leaves. *)
Definition set_activated (hwid now : string) (r : Row) : Row :=
  licenses.mkRow 1 (Some hwid) (licenses.created_at r) (licenses.valid_days r)
    (Some now) (licenses.note r).

Definition exec_cmd {B} (c : cmd B) : state -> outcome B * state :=
  match c in cmd B return state -> outcome B * state with
  | Connect =>
      (* sqlite3.connect(path) *)
      fun s => (Return tt, emit EvConnect (mkState (disk s) None (trace s)))
  | CreateTable =>
      (* CREATE TABLE IF NOT EXISTS licenses (...): the rows are kept *)
      fun s => (Return tt, emit EvCreateTable s)
  | SelectByKey key_str =>
      (* SELECT * FROM licenses WHERE key_str=? ; fetchone() *)
      fun s => (Return (view s !! key_str), emit (EvSelect key_str) s)
  | InsertLicense key_str days now note =>
      (* INSERT INTO licenses (key_str, valid_days, created_at, note)
         VALUES (?, ?, ?, ?): the call raises while binding a [days] that
         does not fit, and an existing primary key is refused *)
      fun s =>
        if negb (fits_int64 days)
        then (Raise OverflowError, emit (EvInsert key_str) s)
        else match view s !! key_str with
             | Some _ => (Raise IntegrityError, emit (EvInsert key_str) s)
             | None =>
                 (Return tt,
                  emit (EvInsert key_str)
                    (mkState (disk s)
                       (Some (<[key_str := inserted_row days now note]> (view s)))
                       (trace s)))
             end
  | UpdateActivation hwid now key_str =>
      (* UPDATE licenses SET is_used=1, hwid=?, activated_at=?
         WHERE key_str=? *)
      fun s =>
        (Return tt,
         emit (EvUpdate key_str)
           (mkState (disk s)
              (Some (alter (set_activated hwid now) key_str (view s)))
              (trace s)))
  | Commit =>
      (* conn.commit() *)
      fun s => (Return tt, emit EvCommit (mkState (view s) None (trace s)))
  | Close =>
      (* conn.close(): whatever was not committed is rolled back *)
      fun s => (Return tt, emit EvClose (mkState (disk s) None (trace s)))
  end.

(** A program run from start to end with nothing else touching the
    database in between. *)
Fixpoint exec {A} (p : prog A) (s : state) : outcome A * state :=
  match p with
  | Ret a => (Return a, s)
  | Throw e => (Raise e, s)
  | Do c k =>
      match exec_cmd c s with
      | (Return b, s') => exec (k b) s'
      | (Raise e, s') => (Raise e, s')
      end
  end.

(** A whole request or command run against the database file: it starts
    with no connection, and a connection left open when an exception
    escapes is dropped without commit. *)
Definition run {A} (p : prog A) (db : table)
  : outcome A * table * list db_event :=
  let '(r, s) := exec p (mkState db None []) in (r, disk s, trace s).

Definition connect : prog unit := call Connect.
Definition commit : prog unit := call Commit.
Definition close : prog unit := call Close.

End sqlite3.

Notation "x <- m ;; k" := (sqlite3.bind m (fun x => k))
  (at level 100, m at next level, right associativity).
Notation "m ;;; k" := (sqlite3.bind m (fun _ => k))
  (at level 100, right associativity).

(** ** The process environment: the random source and the clock

    [uuid4 e i] is [str(uuid.uuid4())] for the [i]-th draw of a run and
    [now e i] is [datetime.datetime.now().isoformat()] at the [i]-th
    reading. *)
Record env := mkEnv {
  uuid4 : nat -> string;
  now : nat -> string
}.

(** [str.upper()] on the ASCII text of a UUID. *)
Definition upper_ascii (c : ascii) : ascii :=
  let n := nat_of_ascii c in
  if (97 <=? n)%nat && (n <=? 122)%nat then ascii_of_nat (n - 32) else c.

Fixpoint upper (s : string) : string :=
  match s with
  | EmptyString => EmptyString
  | String c s' => String (upper_ascii c) (upper s')
  end.

(** JSON values of the activation responses. *)
Inductive json :=
| JStr (s : string)
| JInt (z : Z).

(** [d.get(name)] on a response dict, kept in insertion order. *)
Fixpoint field (name : string) (d : list (string * json)) : option json :=
  match d with
  | [] => None
  | (n, v) :: d' => if decide (n = name) then Some v else field name d'
  end.

(** * main.py *)
Module main.

Definition ADMIN_PASSWORD : string := "your_secret_password".

Record ActivationRequest := mkReq { key : string; hwid : string }.

Definition get_db_connection : sqlite3.prog unit := sqlite3.connect.

(** The two pages [generate_license] answers with. *)
Inductive html :=
| PasswordError                                        (* "密码错误！" *)
| Generated (count : Z) (generated_keys : list string).

Record HTMLResponse := mkHTML { content : html; status_code : Z }.

(** [for _ in range(count)]: [n] iterations left, the [i]-th draw next. *)
Fixpoint generate_loop (e : env) (days : Z) (note : string) (n i : nat)
    (generated_keys : list string) : sqlite3.prog (list string) :=
  match n with
  | O => sqlite3.Ret generated_keys
  | S n' =>
      let key := upper (uuid4 e i) in
      let now := now e i in
      sqlite3.call (sqlite3.InsertLicense key days now note) ;;;
      generate_loop e days note n' (S i) (generated_keys ++ [key])
  end.

(** [POST /admin/generate] *)
Definition generate_license (e : env) (password : string) (count days : Z)
    (note : string) : sqlite3.prog HTMLResponse :=
  if decide (password ≠ ADMIN_PASSWORD) then
    sqlite3.Ret (mkHTML PasswordError 403)
  else
    get_db_connection ;;;
    generated_keys <- generate_loop e days note (Z.to_nat count) 0 [] ;;
    sqlite3.commit ;;;
    sqlite3.close ;;;
    sqlite3.Ret (mkHTML (Generated count generated_keys) 200).

Definition msg_welcome_back : string := "欢迎回来".
Definition msg_activated : string := "激活成功".
Definition detail_not_found : string := "密钥不存在".
Definition detail_other_device : string :=
  "该密钥已被其他设备激活，无法重复使用".

Definition success (msg : string) (days : Z) : list (string * json) :=
  [("status", JStr "success"); ("msg", JStr msg); ("days", JInt days)].

(** [POST /api/activate]; [now] is the clock reading of line 191. *)
Definition activate (now : string) (req : ActivationRequest)
  : sqlite3.prog (list (string * json)) :=
  get_db_connection ;;;
  row <- sqlite3.call (sqlite3.SelectByKey (key req)) ;;
  match row with
  | None =>
      sqlite3.close ;;;
      sqlite3.Throw (HTTPException 404 detail_not_found)
  | Some license_data =>
      if decide (licenses.is_used license_data = 1) then
        if decide (licenses.hwid license_data = Some (hwid req)) then
          sqlite3.close ;;;
          sqlite3.Ret (success msg_welcome_back (licenses.valid_days license_data))
        else
          sqlite3.close ;;;
          sqlite3.Throw (HTTPException 403 detail_other_device)
      else
        sqlite3.call (sqlite3.UpdateActivation (hwid req) now (key req)) ;;;
        sqlite3.commit ;;;
        sqlite3.close ;;;
        sqlite3.Ret (success msg_activated (licenses.valid_days license_data))
  end.

End main.

(** * manage.py *)
Module manage.

Definition init_db : sqlite3.prog unit :=
  sqlite3.call sqlite3.CreateTable ;;; sqlite3.commit.

Fixpoint generate_keys_loop (e : env) (days : Z) (note : string) (n i : nat)
    (keys : list string) : sqlite3.prog (list string) :=
  match n with
  | O => sqlite3.Ret keys
  | S n' =>
      let key := upper (uuid4 e i) in
      let now := now e i in
      sqlite3.call (sqlite3.InsertLicense key days now note) ;;;
      generate_keys_loop e days note n' (S i) (keys ++ [key])
  end.

Definition generate_keys (e : env) (count days : Z) (note : string)
  : sqlite3.prog (list string) :=
  sqlite3.connect ;;;
  init_db ;;;
  keys <- generate_keys_loop e days note (Z.to_nat count) 0 [] ;;
  sqlite3.commit ;;;
  sqlite3.close ;;;
  sqlite3.Ret keys.

(** What [parse_args] hands to [main]. *)
Record Namespace := mkArgs {
  command : string;
  count : Z;
  days : Z;
  note : string
}.

Inductive printed :=
| Stdout (text : string)
| Stderr (text : string)
| Help.

Definition newline : string := String (ascii_of_nat 10) EmptyString.

Definition err_count : string := "Error: --count must be between 1 and 100.".
Definition err_days : string := "Error: --days must be -1 or a positive integer.".

(** [main()], after argument parsing: the exit status and what was
    printed. *)
Definition main (e : env) (args : Namespace) : sqlite3.prog (Z * list printed) :=
  if decide (command args = "gen") then
    if (count args <? 1) || (count args >? 100) then
      sqlite3.Ret (1, [Stderr err_count])
    else if negb (days args =? -1) && (days args <=? 0) then
      sqlite3.Ret (1, [Stderr err_days])
    else
      keys <- generate_keys e (count args) (days args) (note args) ;;
      sqlite3.Ret (0, [Stdout (String.concat newline keys)])
  else
    sqlite3.Ret (1, [Help]).

End manage.

(** ** The tool as a process

    [parser.parse_args()] (first statement of [main()]) either returns the
    Namespace or ends the process itself by raising [SystemExit]: with
    status 0 after printing the help ([-h]), with status 2 after a usage
    error.  Which of these happens is decided by argparse from the command
    line; it is taken here as given. *)
Inductive parse_args_result :=
| Parsed (args : manage.Namespace)
| SystemExit (status : Z) (out : list manage.printed).

(** [raise SystemExit(main())]: the exit status of the process and what it
    printed. *)
Definition manage_script (e : env) (p : parse_args_result)
  : sqlite3.prog (Z * list manage.printed) :=
  match p with
  | Parsed args => manage.main e args
  | SystemExit status out => sqlite3.Ret (status, out)
  end.

(** * Serving requests *)
Module server.

Abbreviation reply := (list (string * json)).

(** ** One server process

    [uvicorn main:app] serves every request on one event loop.
    [activate] is an [async def] without any [await], so once the loop
    starts the handler of a request it runs it to its end before it
    starts another one; the order in which waiting requests are started
    is not fixed. *)
Inductive task :=
| Waiting (req : main.ActivationRequest)
| Finished (r : outcome reply).

Record loop := mkLoop { db : table; tasks : list task }.

(** The loop starts the handler of the waiting request [i]; [now] is
    what the clock reads during that call. *)
Definition loop_next (i : nat) (now : string) (l : loop) : option loop :=
  match tasks l !! i with
  | Some (Waiting req) =>
      let '(r, db', _) := sqlite3.run (main.activate now req) (db l) in
      Some (mkLoop db' (<[i := Finished r]> (tasks l)))
  | _ => None
  end.

Definition loop_step (l l' : loop) : Prop :=
  exists i now, loop_next i now l = Some l'.

Definition finished (t : task) : Prop :=
  match t with Finished _ => True | Waiting _ => False end.

(** ** Several server processes on one database file

    Each worker process has its own connection; the calls of different
    workers interleave one statement at a time.  SQLite lets one
    connection at a time hold a write transaction: a worker whose next
    call writes while another worker has uncommitted changes waits, and
    either makes the call once the other is done ([worker_next]) or, when
    the connection's timeout (5 s) passes first, has the call raise
    [OperationalError] ([worker_timeout]). *)
Record worker := mkWorker {
  txn : option table;
  code : sqlite3.prog reply
}.

Record cluster := mkCluster {
  file : table;
  workers : list worker;
  log : list sqlite3.db_event
}.

Definition writes {B} (c : sqlite3.cmd B) : bool :=
  match c with
  | sqlite3.InsertLicense _ _ _ _ | sqlite3.UpdateActivation _ _ _ => true
  | _ => false
  end.

Definition idle (w : worker) : bool :=
  match txn w with None => true | Some _ => false end.

Definition others_idle (i : nat) (ws : list worker) : bool :=
  forallb idle (delete i ws).

Definition after_call {B} (r : outcome B) (s' : sqlite3.state)
    (k : B -> sqlite3.prog reply) : worker :=
  match r with
  | Return b => mkWorker (sqlite3.pending s') (k b)
  | Raise e => mkWorker None (sqlite3.Throw e)
  end.

(** Worker [i] makes its next call on the database. *)
Definition worker_next (i : nat) (c : cluster) : option cluster :=
  match workers c !! i with
  | Some w =>
      match code w with
      | sqlite3.Do cm k =>
          if writes cm && negb (others_idle i (workers c)) then None
          else
            let '(r, s') :=
              sqlite3.exec_cmd cm (sqlite3.mkState (file c) (txn w) (log c)) in
            Some (mkCluster (sqlite3.disk s')
                    (<[i := after_call r s' k]> (workers c))
                    (sqlite3.trace s'))
      | _ => None
      end
  | None => None
  end.

(** The event a call is recorded as. *)
Definition call_event {B} (cm : sqlite3.cmd B) : sqlite3.db_event :=
  match cm with
  | sqlite3.Connect => sqlite3.EvConnect
  | sqlite3.CreateTable => sqlite3.EvCreateTable
  | sqlite3.SelectByKey k => sqlite3.EvSelect k
  | sqlite3.InsertLicense k _ _ _ => sqlite3.EvInsert k
  | sqlite3.UpdateActivation _ _ k => sqlite3.EvUpdate k
  | sqlite3.Commit => sqlite3.EvCommit
  | sqlite3.Close => sqlite3.EvClose
  end.

(** The write worker [i] is waiting to make gives up: the call raises
    "database is locked", the exception leaves the handler, and nothing
    of the worker reaches the file. *)
Definition worker_timeout (i : nat) (c : cluster) : option cluster :=
  match workers c !! i with
  | Some w =>
      match code w with
      | sqlite3.Do cm k =>
          if writes cm && negb (others_idle i (workers c)) then
            Some (mkCluster (file c)
                    (<[i := mkWorker None (sqlite3.Throw OperationalError)]>
                       (workers c))
                    (log c ++ [call_event cm]))
          else None
      | _ => None
      end
  | None => None
  end.

Definition worker_step (c c' : cluster) : Prop :=
  exists i, worker_next i c = Some c' \/ worker_timeout i c = Some c'.

(** The workers make their calls in the order [sched] names them. *)
Fixpoint worker_run (sched : list nat) (c : cluster) : option cluster :=
  match sched with
  | [] => Some c
  | i :: sched' =>
      match worker_next i c with
      | Some c' => worker_run sched' c'
      | None => None
      end
  end.

(** Two first activations of one key, as the claim about the race
    reads them: [r1] and [r2] are what the calls for [m1] and [m2]
    returned, [row] the record afterwards. *)
Definition one_winner (days : Z) (m1 m2 : string) (r1 r2 : outcome reply)
    (row : option Row) : Prop :=
  (r1 = Return (main.success main.msg_activated days) /\
   r2 = Raise (HTTPException 403 main.detail_other_device) /\
   exists r, row = Some r /\ licenses.is_used r = 1 /\ licenses.hwid r = Some m1)
  \/
  (r1 = Raise (HTTPException 403 main.detail_other_device) /\
   r2 = Return (main.success main.msg_activated days) /\
   exists r, row = Some r /\ licenses.is_used r = 1 /\ licenses.hwid r = Some m2).

End server.

(** * The operations on the store and the states they reach *)
Inductive op :=
| Activate (now : string) (req : main.ActivationRequest)
| Generate (e : env) (password : string) (count days : Z) (note : string)
| ManageGen (e : env) (args : manage.Namespace).

Definition db_after (o : op) (db : table) : table :=
  match o with
  | Activate now req => (sqlite3.run (main.activate now req) db).1.2
  | Generate e password count days note =>
      (sqlite3.run (main.generate_license e password count days note) db).1.2
  | ManageGen e args => (sqlite3.run (manage.main e args) db).1.2
  end.

(** The database starts empty ([init_db] creates the table). *)
Inductive reachable : table -> Prop :=
| reachable_init : reachable ∅
| reachable_op db o : reachable db -> reachable (db_after o db).

(** The invariant of a record: both [hwid] and [activated_at] are unset
    exactly when [is_used] is 0, and both set exactly when it is 1. *)
Definition row_ok (r : Row) : Prop :=
  ((licenses.hwid r = None /\ licenses.activated_at r = None) <->
     licenses.is_used r = 0) /\
  ((is_Some (licenses.hwid r) /\ is_Some (licenses.activated_at r)) <->
     licenses.is_used r = 1).

(** Sample environment and database used in the examples. *)
Definition sample_env : env :=
  mkEnv (fun i => "k" +:+ pretty i) (fun i => "2026-01-01T00:00:0" +:+ pretty i).

Definition sample_db : table :=
  (sqlite3.run (main.generate_license sample_env main.ADMIN_PASSWORD 2 30 "acme") ∅).1.2.

(** The record of key ["K0"] in [sample_db], and the database after machine
    ["m1"] activated it. *)
Definition sample_row : Row :=
  licenses.mkRow 0 None "2026-01-01T00:00:00" 30 None "acme".

Definition sample_bound_db : table :=
  db_after (Activate "2026-02-01T10:00:00" (main.mkReq "K0" "m1")) sample_db.

Definition sample_bound_row : Row :=
  licenses.mkRow 1 (Some "m1") "2026-01-01T00:00:00" 30
    (Some "2026-02-01T10:00:00") "acme".

(** Two worker processes, each about to serve a first activation of key
    ["K0"], from machines ["m1"] and ["m2"]. *)
Definition race_start : server.cluster :=
  server.mkCluster sample_db
    [server.mkWorker None (main.activate "2026-02-01T10:00:00" (main.mkReq "K0" "m1"));
     server.mkWorker None (main.activate "2026-02-01T10:00:01" (main.mkReq "K0" "m2"))]
    [].

(** The keys the [n] iterations starting at draw [i] generate. *)
Definition keys_from (e : env) (i n : nat) : list string :=
  map (fun j => upper (uuid4 e j)) (seq i n).

(** The table after those iterations inserted their rows. *)
Fixpoint insert_batch (e : env) (days : Z) (note : string) (n i : nat)
    (t : table) : table :=
  match n with
  | O => t
  | S n' =>
      insert_batch e days note n' (S i)
        (<[upper (uuid4 e i) := sqlite3.inserted_row days (now e i) note]> t)
  end.

(** The store refuses one of [keys]: the key is already in the table, or
    was generated earlier in the same batch. *)
Definition collides (t : table) (keys : list string) : Prop :=
  exists j k, keys !! j = Some k /\ (is_Some (t !! k) \/ k ∈ take j keys).

Definition table_ok (t : table) : Prop :=
  forall k r, t !! k = Some r -> row_ok r.

Definition state_ok (s : sqlite3.state) : Prop :=
  table_ok (sqlite3.disk s) /\ table_ok (sqlite3.view s).

Definition cluster_ok (c : server.cluster) : Prop :=
  table_ok (server.file c) /\
  Forall (fun w => forall t, server.txn w = Some t -> table_ok t) (server.workers c).


(** ** Sequences of operations *)

(** The operations [ops] applied one after the other. *)
Definition db_after_all (ops : list op) (db : table) : table :=
  foldl (fun d o => db_after o d) db ops.

(** Activation requests served one after the other, each with its own
    clock reading: the replies, in order, and the database afterwards. *)
Fixpoint activate_all (calls : list (string * main.ActivationRequest))
    (db : table) : list (outcome server.reply) * table :=
  match calls with
  | [] => ([], db)
  | (now, req) :: calls' =>
      let '(r, db', _) := sqlite3.run (main.activate now req) db in
      let '(rs, db'') := activate_all calls' db' in
      (r :: rs, db'')
  end.


(** The values the columns [is_used] and [valid_days] take. *)
Definition row_domain_ok (r : Row) : Prop :=
  (licenses.is_used r = 0 \/ licenses.is_used r = 1) /\
  sqlite3.fits_int64 (licenses.valid_days r) = true.

(** Two connection states that differ at most in the recorded trace. *)
Definition same_db (s1 s2 : sqlite3.state) : Prop :=
  sqlite3.disk s1 = sqlite3.disk s2 /\ sqlite3.pending s1 = sqlite3.pending s2.

(** An ASCII lower-case letter. *)
Definition lowercase (c : ascii) : Prop :=
  (97 <= nat_of_ascii c <= 122)%nat.

(** A call that changes rows or publishes changes. *)
Definition is_write (ev : sqlite3.db_event) : bool :=
  match ev with
  | sqlite3.EvInsert _ | sqlite3.EvUpdate _ | sqlite3.EvCommit => true
  | _ => false
  end.

(** * Properties *)

(** ** Running programs *)

Lemma exec_bind {A B} (m : sqlite3.prog A) (f : A -> sqlite3.prog B) s :
  sqlite3.exec (sqlite3.bind m f) s =
  match sqlite3.exec m s with
  | (Return a, s') => sqlite3.exec (f a) s'
  | (Raise e, s') => (Raise e, s')
  end.
Proof.
  revert s. induction m as [a|e|C c k IH]; intros s; cbn; try done.
  destruct (sqlite3.exec_cmd c s) as [[b|e] s']; [apply IH | done].
Qed.

(** An UPDATE of an existing row rewrites that row and nothing else. *)
Lemma alter_present (f : Row -> Row) (k : string) (db : table) (row : Row) :
  db !! k = Some row -> alter f k db = <[k := f row]> db.
Proof.
  intros Hk. apply map_eq. intros j. destruct (decide (k = j)) as [<-|Hne].
  - by rewrite lookup_alter_eq, lookup_insert_eq, Hk.
  - by rewrite lookup_alter_ne, lookup_insert_ne.
Qed.

(** ** [activate], case by case *)
Section activate_cases.
Variables (db : table) (now k m : string).

Lemma activate_unknown :
  db !! k = None ->
  sqlite3.run (main.activate now (main.mkReq k m)) db =
  (Raise (HTTPException 404 main.detail_not_found), db,
   [sqlite3.EvConnect; sqlite3.EvSelect k; sqlite3.EvClose]).
Proof. intros Hk. unfold sqlite3.run. cbn. by rewrite Hk. Qed.

Lemma activate_first row :
  db !! k = Some row -> licenses.is_used row <> 1 ->
  sqlite3.run (main.activate now (main.mkReq k m)) db =
  (Return (main.success main.msg_activated (licenses.valid_days row)),
   <[k := sqlite3.set_activated m now row]> db,
   [sqlite3.EvConnect; sqlite3.EvSelect k; sqlite3.EvUpdate k;
    sqlite3.EvCommit; sqlite3.EvClose]).
Proof.
  intros Hk Hu. unfold sqlite3.run. cbn. rewrite Hk. cbn.
  case_decide; [done|]. cbn.
  by rewrite (alter_present _ _ _ _ Hk).
Qed.

Lemma activate_again row :
  db !! k = Some row -> licenses.is_used row = 1 ->
  licenses.hwid row = Some m ->
  sqlite3.run (main.activate now (main.mkReq k m)) db =
  (Return (main.success main.msg_welcome_back (licenses.valid_days row)), db,
   [sqlite3.EvConnect; sqlite3.EvSelect k; sqlite3.EvClose]).
Proof.
  intros Hk Hu Hm. unfold sqlite3.run. cbn. rewrite Hk. cbn.
  case_decide; [|done]. by case_decide.
Qed.

Lemma activate_other row :
  db !! k = Some row -> licenses.is_used row = 1 ->
  licenses.hwid row <> Some m ->
  sqlite3.run (main.activate now (main.mkReq k m)) db =
  (Raise (HTTPException 403 main.detail_other_device), db,
   [sqlite3.EvConnect; sqlite3.EvSelect k; sqlite3.EvClose]).
Proof.
  intros Hk Hu Hm. unfold sqlite3.run. cbn. rewrite Hk. cbn.
  case_decide; [|done]. by case_decide.
Qed.

End activate_cases.

(** ** Activation *)

(** C9: activating a record whose [is_used] is 0 succeeds: the reply is
    the dict with status ["success"], the message of a first activation
    and [days] the stored [valid_days]; afterwards the record has
    [is_used = 1], [hwid] the requesting machine and [activated_at] the
    time of the call, its other columns and every other record being as
    before. *)
Theorem activate_unactivated_binds (db : table) (now k m1 : string) (row : Row) :
  db !! k = Some row ->
  licenses.is_used row = 0 ->
  exists db' tr,
    sqlite3.run (main.activate now (main.mkReq k m1)) db =
      (Return [("status", JStr "success"); ("msg", JStr main.msg_activated);
               ("days", JInt (licenses.valid_days row))], db', tr) /\
    db' !! k = Some (licenses.mkRow 1 (Some m1) (licenses.created_at row)
                       (licenses.valid_days row) (Some now) (licenses.note row)) /\
    forall k', k' <> k -> db' !! k' = db !! k'.
Proof.
  intros Hk Hu. eexists _, _. split.
  - apply activate_first with (row := row); [done | lia].
  - split; [apply lookup_insert_eq |].
    intros k' Hne. by apply lookup_insert_ne.
Qed.

Lemma activate_unactivated_binds_witness :
  sample_db !! "K0" = Some sample_row /\
  licenses.is_used sample_row = 0 /\
  exists db' tr,
    sqlite3.run (main.activate "2026-02-01T10:00:00" (main.mkReq "K0" "m1")) sample_db =
      (Return [("status", JStr "success"); ("msg", JStr main.msg_activated);
               ("days", JInt 30)], db', tr) /\
    db' !! "K0" = Some sample_bound_row /\
    forall k', k' <> "K0" -> db' !! k' = sample_db !! k'.
Proof.
  split; [vm_compute; reflexivity |]. split; [reflexivity |].
  apply (activate_unactivated_binds sample_db "2026-02-01T10:00:00" "K0" "m1" sample_row);
    [vm_compute; reflexivity | reflexivity].
Defined.

(** C7: on a record already bound to machine [m1], [activate] from [m1]
    succeeds again: the reply has the keys, the status and the [days] of a
    first activation, carries the stored [valid_days], and the database
    (so [hwid] and [activated_at] too) is left as it was, without any
    write. *)
Theorem activate_bound_machine_idempotent (db : table) (now k m1 : string) (row : Row) :
  db !! k = Some row ->
  licenses.is_used row = 1 ->
  licenses.hwid row = Some m1 ->
  let fresh := main.success main.msg_activated (licenses.valid_days row) in
  exists reply,
    sqlite3.run (main.activate now (main.mkReq k m1)) db =
      (Return reply, db, [sqlite3.EvConnect; sqlite3.EvSelect k; sqlite3.EvClose]) /\
    map fst reply = map fst fresh /\
    field "status" reply = field "status" fresh /\
    field "days" reply = Some (JInt (licenses.valid_days row)).
Proof.
  intros Hk Hu Hm fresh. eexists. split.
  - by apply activate_again with (row := row).
  - done.
Qed.

Lemma activate_bound_machine_idempotent_witness :
  sample_bound_db !! "K0" = Some sample_bound_row /\
  exists reply,
    sqlite3.run (main.activate "2027-01-01T00:00:00" (main.mkReq "K0" "m1"))
      sample_bound_db =
      (Return reply, sample_bound_db,
       [sqlite3.EvConnect; sqlite3.EvSelect "K0"; sqlite3.EvClose]) /\
    map fst reply = ["status"; "msg"; "days"] /\
    field "status" reply = Some (JStr "success") /\
    field "days" reply = Some (JInt 30).
Proof.
  split; [vm_compute; reflexivity |].
  apply (activate_bound_machine_idempotent sample_bound_db "2027-01-01T00:00:00"
           "K0" "m1" sample_bound_row);
    [vm_compute; reflexivity | reflexivity | reflexivity].
Defined.

(** C8: on a record bound to machine [m1], [activate] from another machine
    [m2] raises the 403 error and writes nothing; the error is one fixed
    value, the same whichever machine the key is bound to, so it carries
    nothing of [m1]. *)
Theorem activate_other_machine_rejected (db : table) (now k m1 m2 : string) (row : Row) :
  db !! k = Some row ->
  licenses.is_used row = 1 ->
  licenses.hwid row = Some m1 ->
  m2 <> m1 ->
  sqlite3.run (main.activate now (main.mkReq k m2)) db =
    (Raise (HTTPException 403 main.detail_other_device), db,
     [sqlite3.EvConnect; sqlite3.EvSelect k; sqlite3.EvClose]) /\
  forall (db2 : table) (row2 : Row) (m1' : string),
    db2 !! k = Some row2 -> licenses.is_used row2 = 1 ->
    licenses.hwid row2 = Some m1' -> m2 <> m1' ->
    (sqlite3.run (main.activate now (main.mkReq k m2)) db2).1.1 =
    (sqlite3.run (main.activate now (main.mkReq k m2)) db).1.1.
Proof.
  intros Hk Hu Hm Hne.
  assert (Hrej : forall (d : table) (r : Row) (m : string),
             d !! k = Some r -> licenses.is_used r = 1 ->
             licenses.hwid r = Some m -> m2 <> m ->
             sqlite3.run (main.activate now (main.mkReq k m2)) d =
             (Raise (HTTPException 403 main.detail_other_device), d,
              [sqlite3.EvConnect; sqlite3.EvSelect k; sqlite3.EvClose])).
  { intros d r m Hd Hdu Hdm Hdne. apply activate_other with (row := r); try done.
    rewrite Hdm. congruence. }
  split; [by apply Hrej with (r := row) (m := m1) |].
  intros db2 row2 m1' H2 H2u H2m H2ne.
  rewrite (Hrej db2 row2 m1'), (Hrej db row m1); done.
Qed.

Lemma activate_other_machine_rejected_witness :
  sample_bound_db !! "K0" = Some sample_bound_row /\
  sqlite3.run (main.activate "2026-03-01T00:00:00" (main.mkReq "K0" "m2"))
    sample_bound_db =
    (Raise (HTTPException 403 main.detail_other_device), sample_bound_db,
     [sqlite3.EvConnect; sqlite3.EvSelect "K0"; sqlite3.EvClose]).
Proof.
  split; [vm_compute; reflexivity |].
  apply (activate_other_machine_rejected sample_bound_db "2026-03-01T00:00:00"
           "K0" "m1" "m2" sample_bound_row);
    [vm_compute; reflexivity | reflexivity | reflexivity | discriminate].
Defined.

(** C6: whenever [activate] accepts a call (the record is not yet used, or
    is bound to the calling machine) it accepts it whatever the clock, the
    stored [activated_at] and the stored [valid_days] are, and the [days]
    of its reply is the stored [valid_days] itself: no expiry is computed
    and none is enforced. *)
Theorem activate_days_uninterpreted (db : table) (now k m : string) (row : Row) :
  db !! k = Some row ->
  licenses.is_used row <> 1 \/ licenses.hwid row = Some m ->
  (sqlite3.run (main.activate now (main.mkReq k m)) db).1.1 =
  Return [("status", JStr "success");
          ("msg", JStr (if decide (licenses.is_used row = 1)
                        then main.msg_welcome_back else main.msg_activated));
          ("days", JInt (licenses.valid_days row))].
Proof.
  intros Hk Hacc. case_decide as Hu.
  - destruct Hacc as [|Hm]; [done|].
    by rewrite (activate_again db now k m row).
  - by rewrite (activate_first db now k m row).
Qed.

Lemma activate_days_uninterpreted_witness :
  sample_bound_db !! "K0" = Some sample_bound_row /\
  (sqlite3.run (main.activate "2099-12-31T23:59:59" (main.mkReq "K0" "m1"))
     sample_bound_db).1.1 =
  Return [("status", JStr "success"); ("msg", JStr main.msg_welcome_back);
          ("days", JInt 30)].
Proof.
  split; [vm_compute; reflexivity |].
  apply (activate_days_uninterpreted sample_bound_db "2099-12-31T23:59:59"
           "K0" "m1" sample_bound_row);
    [vm_compute; reflexivity | right; reflexivity].
Defined.

(** ** Issuance *)

(** C10: a request to [/admin/generate] whose password is not
    [ADMIN_PASSWORD] is answered with status 403 without a single call on
    the database, which keeps every record it had and gains none. *)
Theorem generate_license_wrong_password (e : env) (password : string)
    (count days : Z) (note : string) (db : table) :
  password <> main.ADMIN_PASSWORD ->
  sqlite3.run (main.generate_license e password count days note) db =
    (Return (main.mkHTML main.PasswordError 403), db, []).
Proof.
  intros Hpw. unfold main.generate_license. by case_decide.
Qed.

Lemma generate_license_wrong_password_witness :
  "guess" <> main.ADMIN_PASSWORD /\
  sqlite3.run (main.generate_license sample_env "guess" 5 30 "acme") sample_db =
    (Return (main.mkHTML main.PasswordError 403), sample_db, []).
Proof.
  split; [discriminate |].
  apply (generate_license_wrong_password sample_env "guess" 5 30 "acme" sample_db).
  discriminate.
Defined.

(** ** The record invariant *)

Lemma row_ok_inserted days now note : row_ok (sqlite3.inserted_row days now note).
Proof. unfold row_ok; cbn. split; split; try done. by intros [[? ?] _]. Qed.

Lemma row_ok_activated hwid now r : row_ok (sqlite3.set_activated hwid now r).
Proof. unfold row_ok; cbn. split; split; try done; eauto. by intros [? _]. Qed.

Lemma table_ok_insert t k r : table_ok t -> row_ok r -> table_ok (<[k := r]> t).
Proof.
  intros Ht Hr j r'. destruct (decide (k = j)) as [<-|Hne].
  - rewrite lookup_insert_eq. by intros [= <-].
  - rewrite lookup_insert_ne by done. apply Ht.
Qed.

Lemma table_ok_alter t k hwid now :
  table_ok t -> table_ok (alter (sqlite3.set_activated hwid now) k t).
Proof.
  intros Ht j r'. destruct (decide (k = j)) as [<-|Hne].
  - rewrite lookup_alter_eq. destruct (t !! k); [|done].
    intros [= <-]. apply row_ok_activated.
  - rewrite lookup_alter_ne by done. apply Ht.
Qed.

(** Every call on a connection keeps the invariant, on the file and inside
    the open transaction. *)
Lemma exec_cmd_ok {B} (c : sqlite3.cmd B) s :
  state_ok s -> state_ok (sqlite3.exec_cmd c s).2.
Proof.
  intros [Hd Hv]. destruct c; cbn; try done.
  - destruct (negb _); [done|]. destruct (sqlite3.view s !! key_str); [done|].
    split; [done|]. cbn. apply table_ok_insert; [done | apply row_ok_inserted].
  - split; [done|]. cbn. by apply table_ok_alter.
Qed.

Lemma exec_ok {A} (p : sqlite3.prog A) s :
  state_ok s -> state_ok (sqlite3.exec p s).2.
Proof.
  revert s. induction p as [a|e|B c k IH]; intros s Hs; cbn; try done.
  pose proof (exec_cmd_ok c s Hs) as Hc.
  destruct (sqlite3.exec_cmd c s) as [[b|e] s']; [by apply IH | done].
Qed.

Lemma run_ok {A} (p : sqlite3.prog A) db :
  table_ok db -> table_ok (sqlite3.run p db).1.2.
Proof.
  intros Hdb. unfold sqlite3.run.
  pose proof (exec_ok p (sqlite3.mkState db None []) (conj Hdb Hdb)) as [Hd _].
  by destruct (sqlite3.exec p _) as [r s'].
Qed.

Lemma db_after_ok o db : table_ok db -> table_ok (db_after o db).
Proof. destruct o; cbn; apply run_ok. Qed.

(** C2: in every database state the operations can reach, each record has
    [hwid] and [activated_at] both unset exactly when [is_used] is 0 and
    both set exactly when [is_used] is 1, and every further operation (a
    batch of insertions, an activation) leads to a state where this holds
    again. *)
Theorem reachable_rows_ok (db : table) :
  reachable db ->
  (forall k r, db !! k = Some r -> row_ok r) /\
  (forall o k r, db_after o db !! k = Some r -> row_ok r).
Proof.
  intros Hreach.
  assert (Hok : table_ok db).
  { induction Hreach as [|db o _ IH]; [by intros k r | by apply db_after_ok]. }
  split; [exact Hok |].
  intros o. by apply db_after_ok.
Qed.

Lemma reachable_rows_ok_witness :
  reachable sample_bound_db /\
  sample_bound_db !! "K0" = Some sample_bound_row /\
  row_ok sample_bound_row.
Proof.
  assert (Hreach : reachable sample_bound_db).
  { unfold sample_bound_db. apply reachable_op.
    change sample_db
      with (db_after (Generate sample_env main.ADMIN_PASSWORD 2 30 "acme") ∅).
    apply reachable_op, reachable_init. }
  split; [exact Hreach |].
  split; [vm_compute; reflexivity |].
  apply (proj1 (reachable_rows_ok sample_bound_db Hreach) "K0").
  vm_compute; reflexivity.
Defined.

(** The invariant also holds whatever the interleaving of the calls of
    several worker processes. *)
Lemma worker_step_ok c c' :
  cluster_ok c -> server.worker_step c c' -> cluster_ok c'.
Proof.
  intros [Hfile Hws] [i [Hnext|Htimeout]].
  2: { unfold server.worker_timeout in Htimeout.
       destruct (server.workers c !! i) as [w|]; [|done].
       destruct (server.code w) as [a|ex|B cm k]; [done|done|].
       destruct (_ && _); [|done]. injection Htimeout as <-.
       split; [done|]. cbn. by apply Forall_insert. }
  unfold server.worker_next in Hnext.
  destruct (server.workers c !! i) as [w|] eqn:Hw; [|done].
  destruct (server.code w) as [a|ex|B cm k]; [done|done|].
  destruct (_ && _); [done|].
  assert (Hs : state_ok (sqlite3.mkState (server.file c) (server.txn w) (server.log c))).
  { split; [done|]. unfold sqlite3.view. cbn.
    destruct (server.txn w) as [t|] eqn:Ht; cbn; [|done].
    rewrite Forall_lookup in Hws. by apply (Hws i w Hw). }
  apply (exec_cmd_ok cm) in Hs.
  destruct (sqlite3.exec_cmd cm _) as [r s']. injection Hnext as <-.
  destruct Hs as [Hd Hv]. cbn in Hd, Hv. split; [done|]. cbn.
  apply Forall_insert; [done|].
  destruct r as [b|ex]; cbn; [|done].
  intros t Ht. unfold sqlite3.view in Hv. by rewrite Ht in Hv.
Qed.

(** ** The generation loop *)

(** The loops of [generate_keys] and of [generate_license] are the same
    statements. *)
Lemma generate_keys_loop_exec e days note n i acc s :
  sqlite3.exec (manage.generate_keys_loop e days note n i acc) s =
  sqlite3.exec (main.generate_loop e days note n i acc) s.
Proof.
  revert i acc s. induction n as [|n IH]; intros i acc s; [done|].
  cbn [manage.generate_keys_loop main.generate_loop]. rewrite !exec_bind.
  destruct (sqlite3.exec _ s) as [[[]|ex] s']; [apply IH | done].
Qed.

Lemma keys_from_S e i n :
  keys_from e i (S n) = upper (uuid4 e i) :: keys_from e (S i) n.
Proof. done. Qed.

(** No key of the batch is refused: every iteration inserts its row. *)
Lemma generate_loop_inserts e days note n i acc s :
  sqlite3.fits_int64 days = true ->
  NoDup (keys_from e i n) ->
  (forall k, k ∈ keys_from e i n -> sqlite3.view s !! k = None) ->
  exists s',
    sqlite3.exec (main.generate_loop e days note n i acc) s =
      (Return (acc ++ keys_from e i n)%list, s') /\
    sqlite3.disk s' = sqlite3.disk s /\
    sqlite3.view s' = insert_batch e days note n i (sqlite3.view s).
Proof.
  intros Hfit. revert i acc s.
  induction n as [|n IH]; intros i acc s Hnd Hfresh.
  - exists s. cbn. by rewrite app_nil_r.
  - rewrite keys_from_S in Hnd, Hfresh |- *.
    apply NoDup_cons in Hnd as [Hnotin Hnd].
    cbn [main.generate_loop]. rewrite exec_bind.
    cbn -[keys_from]. rewrite Hfit. cbn -[keys_from].
    rewrite (Hfresh (upper (uuid4 e i))) by apply list_elem_of_here.
    edestruct (IH (S i) (acc ++ [upper (uuid4 e i)])%list) as (s' & Hex & Hd & Hv);
      [exact Hnd | | ].
    2: { rewrite Hex. exists s'. rewrite <- app_assoc.
         split; [done|]. split; [by rewrite Hd |]. by rewrite Hv. }
    intros k Hk. cbn. rewrite lookup_insert_ne; [|by intros <-].
    apply Hfresh. by apply list_elem_of_further.
Qed.

Lemma collides_cons_fresh t k0 v keys :
  t !! k0 = None ->
  collides t (k0 :: keys) -> collides (<[k0 := v]> t) keys.
Proof.
  intros Hnone (j & k & Hj & Hc). destruct j as [|j].
  - cbn in Hj. injection Hj as <-. destruct Hc as [[x Hx]|Hin].
    + congruence.
    + cbn in Hin. by apply not_elem_of_nil in Hin.
  - cbn in Hj. exists j, k. split; [done|].
    destruct Hc as [[x Hx]|Hin].
    + left. destruct (decide (k0 = k)) as [<-|Hne]; [congruence|].
      rewrite lookup_insert_ne by done. eauto.
    + cbn in Hin. apply elem_of_cons in Hin as [->|Hin]; [|by right].
      left. rewrite lookup_insert_eq. eauto.
Qed.

(** One key of the batch is refused: the loop stops there with the
    store's error, and nothing was committed. *)
Lemma generate_loop_refused e days note n i acc s :
  sqlite3.fits_int64 days = true ->
  collides (sqlite3.view s) (keys_from e i n) ->
  exists s',
    sqlite3.exec (main.generate_loop e days note n i acc) s =
      (Raise IntegrityError, s') /\
    sqlite3.disk s' = sqlite3.disk s.
Proof.
  intros Hfit. revert i acc s.
  induction n as [|n IH]; intros i acc s Hcol.
  - destruct Hcol as (j & k & Hj & _). by destruct j.
  - cbn [main.generate_loop]. rewrite exec_bind.
    cbn -[keys_from]. rewrite Hfit. cbn -[keys_from].
    destruct (sqlite3.view s !! upper (uuid4 e i)) as [r|] eqn:Hlk.
    + eexists. split; [done|]. done.
    + rewrite keys_from_S in Hcol.
      apply (collides_cons_fresh _ _
               (sqlite3.inserted_row days (now e i) note)) in Hcol; [|done].
      match goal with
      | |- context [sqlite3.exec _ ?s1] =>
          destruct (IH (S i) (acc ++ [upper (uuid4 e i)])%list s1 Hcol)
            as (s' & Hex & Hd)
      end.
      rewrite Hex. by exists s'.
Qed.

Lemma insert_batch_size e days note n i (t : table) :
  NoDup (keys_from e i n) ->
  (forall k, k ∈ keys_from e i n -> t !! k = None) ->
  size (insert_batch e days note n i t) = (size t + n)%nat.
Proof.
  revert i t. induction n as [|n IH]; intros i t Hnd Hfresh; cbn; [lia|].
  rewrite keys_from_S in Hnd, Hfresh. apply NoDup_cons in Hnd as [Hnotin Hnd].
  rewrite IH; [| done |].
  - rewrite map_size_insert_None; [lia|]. apply Hfresh, list_elem_of_here.
  - intros k Hk. rewrite lookup_insert_ne; [|by intros <-].
    by apply Hfresh, list_elem_of_further.
Qed.

(** ** The two issuing paths, batch by batch *)
Section batches.
Variables (e : env) (count days : Z) (note : string) (db : table).
Hypothesis Hfit : sqlite3.fits_int64 days = true.

Lemma generate_license_inserts :
  NoDup (keys_from e 0 (Z.to_nat count)) ->
  (forall k, k ∈ keys_from e 0 (Z.to_nat count) -> db !! k = None) ->
  exists tr,
    sqlite3.run (main.generate_license e main.ADMIN_PASSWORD count days note) db =
    (Return (main.mkHTML (main.Generated count
                           (keys_from e 0 (Z.to_nat count))) 200),
     insert_batch e days note (Z.to_nat count) 0 db, tr).
Proof.
  intros Hnd Hfresh. unfold sqlite3.run, main.generate_license.
  case_decide; [done|]. rewrite exec_bind. cbn. rewrite exec_bind.
  match goal with
  | |- context [sqlite3.exec (main.generate_loop _ _ _ _ _ _) ?s1] =>
      destruct (generate_loop_inserts e days note (Z.to_nat count) 0 [] s1
                  Hfit Hnd Hfresh) as (s' & Hex & Hd & Hv)
  end.
  rewrite Hex. cbn. rewrite Hv. by eexists.
Qed.

Lemma generate_license_refused :
  collides db (keys_from e 0 (Z.to_nat count)) ->
  exists tr,
    sqlite3.run (main.generate_license e main.ADMIN_PASSWORD count days note) db =
    (Raise IntegrityError, db, tr).
Proof.
  intros Hcol. unfold sqlite3.run, main.generate_license.
  case_decide; [done|]. rewrite exec_bind. cbn. rewrite exec_bind.
  match goal with
  | |- context [sqlite3.exec (main.generate_loop _ _ _ _ _ _) ?s1] =>
      destruct (generate_loop_refused e days note (Z.to_nat count) 0 [] s1
                  Hfit Hcol) as (s' & Hex & Hd)
  end.
  rewrite Hex. cbn in Hd. rewrite Hd. by eexists.
Qed.


Lemma generate_keys_refused :
  collides db (keys_from e 0 (Z.to_nat count)) ->
  exists tr,
    sqlite3.run (manage.generate_keys e count days note) db =
    (Raise IntegrityError, db, tr).
Proof.
  intros Hcol. unfold sqlite3.run, manage.generate_keys.
  rewrite exec_bind. cbn. rewrite exec_bind, generate_keys_loop_exec.
  match goal with
  | |- context [sqlite3.exec (main.generate_loop _ _ _ _ _ _) ?s1] =>
      destruct (generate_loop_refused e days note (Z.to_nat count) 0 [] s1
                  Hfit Hcol) as (s' & Hex & Hd)
  end.
  rewrite Hex. cbn in Hd. rewrite Hd. by eexists.
Qed.

End batches.

(** The command-line tool checks both parameters before it opens the
    database. *)
Lemma manage_main_rejects_count e c d n db :
  c < 1 \/ c > 100 ->
  sqlite3.run (manage.main e (manage.mkArgs "gen" c d n)) db =
  (Return (1, [manage.Stderr manage.err_count]), db, []).
Proof.
  intros Hc. unfold manage.main. cbn.
  replace ((c <? 1) || (c >? 100)) with true; [done|].
  symmetry. apply orb_true_iff. destruct Hc; [left | right]; lia.
Qed.

Lemma manage_main_rejects_days e c d n db :
  1 <= c <= 100 -> d <> -1 -> d <= 0 ->
  sqlite3.run (manage.main e (manage.mkArgs "gen" c d n)) db =
  (Return (1, [manage.Stderr manage.err_days]), db, []).
Proof.
  intros Hc Hd1 Hd0. unfold manage.main. cbn.
  replace ((c <? 1) || (c >? 100)) with false
    by (symmetry; apply orb_false_iff; split; lia).
  replace (negb (d =? -1) && (d <=? 0)) with true; [done|].
  symmetry. apply andb_true_iff. split; [apply negb_true_iff|]; lia.
Qed.

(** C4, as the programs behave: when the store refuses a generated key
    (it is already in the table, or was drawn earlier in the same batch),
    neither issuing path draws another key: the store's error reaches the
    caller, and as the batch was never committed the database holds
    exactly the records it held before. *)
Theorem duplicate_key_aborts_batch (e : env) (count days : Z) (note : string)
    (db : table) :
  sqlite3.fits_int64 days = true ->
  collides db (keys_from e 0 (Z.to_nat count)) ->
  (exists tr,
     sqlite3.run (main.generate_license e main.ADMIN_PASSWORD count days note) db =
     (Raise IntegrityError, db, tr)) /\
  (exists tr,
     sqlite3.run (manage.generate_keys e count days note) db =
     (Raise IntegrityError, db, tr)).
Proof.
  intros Hfit Hcol. split.
  - by apply generate_license_refused.
  - by apply generate_keys_refused.
Qed.

Lemma duplicate_key_aborts_batch_witness :
  sqlite3.fits_int64 30 = true /\
  collides sample_db (keys_from sample_env 0 (Z.to_nat 1)) /\
  (exists tr,
     sqlite3.run (main.generate_license sample_env main.ADMIN_PASSWORD 1 30 "acme")
       sample_db = (Raise IntegrityError, sample_db, tr)) /\
  (exists tr,
     sqlite3.run (manage.generate_keys sample_env 1 30 "acme") sample_db =
     (Raise IntegrityError, sample_db, tr)).
Proof.
  assert (Hcol : collides sample_db (keys_from sample_env 0 (Z.to_nat 1))).
  { exists 0%nat, "K0". split; [reflexivity |]. left.
    exists sample_row. vm_compute; reflexivity. }
  split; [reflexivity |]. split; [exact Hcol |].
  apply (duplicate_key_aborts_batch sample_env 1 30 "acme" sample_db);
    [reflexivity | exact Hcol].
Defined.

(** C4 as stated fails: the first key drawn for a batch of one is already
    in [sample_db]; the request ends with the store's error instead of a
    record for the slot, and the database is unchanged. *)
Lemma duplicate_key_not_retried :
  sqlite3.run (main.generate_license sample_env main.ADMIN_PASSWORD 1 30 "acme")
    sample_db =
  (Raise IntegrityError, sample_db, [sqlite3.EvConnect; sqlite3.EvInsert "K0"]).
Proof. vm_compute. reflexivity. Qed.

(** C3 at the failing inputs: [/admin/generate] with the right password
    and [count = 101] inserts 101 records and answers 200, and with
    [count = 0] it answers 200 as well (with no key); no range check is
    made on this path. *)
Theorem generate_license_count_unchecked :
  (exists keys db' tr,
     sqlite3.run (main.generate_license sample_env main.ADMIN_PASSWORD 101 (-1) "") ∅ =
       (Return (main.mkHTML (main.Generated 101 keys) 200), db', tr) /\
     length keys = 101%nat /\ size db' = 101%nat) /\
  sqlite3.run (main.generate_license sample_env main.ADMIN_PASSWORD 0 (-1) "") ∅ =
    (Return (main.mkHTML (main.Generated 0 []) 200), ∅,
     [sqlite3.EvConnect; sqlite3.EvCommit; sqlite3.EvClose]).
Proof.
  split; [| vm_compute; reflexivity].
  assert (Hnd : NoDup (keys_from sample_env 0 (Z.to_nat 101))).
  { apply (bool_decide_unpack _). by vm_compute. }
  assert (Hfresh : forall k, k ∈ keys_from sample_env 0 (Z.to_nat 101) ->
                             (∅ : table) !! k = None).
  { intros k _. apply lookup_empty. }
  destruct (generate_license_inserts sample_env 101 (-1) "" ∅ eq_refl Hnd Hfresh)
    as [tr Htr].
  eexists _, _, tr. split; [exact Htr |]. split.
  - unfold keys_from. by rewrite length_map, length_seq.
  - by rewrite insert_batch_size, map_size_empty.
Qed.

(** C5 at the failing inputs: [/admin/generate] with the right password
    and [days = 0], or [days = -5], inserts the record with that
    [valid_days] and answers 200; no check on [days] is made on this
    path. *)
Theorem generate_license_days_unchecked :
  (exists tr,
     sqlite3.run (main.generate_license sample_env main.ADMIN_PASSWORD 1 0 "") ∅ =
       (Return (main.mkHTML (main.Generated 1 ["K0"]) 200),
        {["K0" := licenses.mkRow 0 None "2026-01-01T00:00:00" 0 None ""]}, tr)) /\
  (exists tr,
     sqlite3.run (main.generate_license sample_env main.ADMIN_PASSWORD 1 (-5) "") ∅ =
       (Return (main.mkHTML (main.Generated 1 ["K0"]) 200),
        {["K0" := licenses.mkRow 0 None "2026-01-01T00:00:00" (-5) None ""]}, tr)).
Proof. split; eexists; vm_compute; reflexivity. Qed.

(** ** Two first activations of one key in flight *)

Lemma worker_run_steps sched c c' :
  server.worker_run sched c = Some c' -> rtc server.worker_step c c'.
Proof.
  revert c. induction sched as [|i sched IH]; intros c; cbn.
  - intros [= ->]. apply rtc_refl.
  - destruct (server.worker_next i c) as [c1|] eqn:Hnext; [|done].
    intros Hrun. eapply rtc_l; [exists i; by left | by apply IH].
Qed.

(** C1 as stated fails when the two calls are served by two worker
    processes: both read the record while [is_used] is 0, then both write;
    both calls return success, and the record keeps the machine that wrote
    last. *)
Lemma two_workers_both_activate :
  exists final,
    rtc server.worker_step race_start final /\
    map server.code (server.workers final) =
      [sqlite3.Ret (main.success main.msg_activated 30);
       sqlite3.Ret (main.success main.msg_activated 30)] /\
    (licenses.hwid <$> server.file final !! "K0") = Some (Some "m2") /\
    ~ server.one_winner 30 "m1" "m2"
        (Return (main.success main.msg_activated 30))
        (Return (main.success main.msg_activated 30))
        (server.file final !! "K0").
Proof.
  eexists. split.
  { apply (worker_run_steps [0; 0; 1; 1; 0; 0; 0; 1; 1; 1]%nat).
    vm_compute. reflexivity. }
  split; [vm_compute; reflexivity |].
  split; [vm_compute; reflexivity |].
  intros [(_ & H & _)|(H & _)]; discriminate.
Qed.

Lemma activated_row_other (m1 m2 now : string) (row : Row) :
  m1 <> m2 -> licenses.hwid (sqlite3.set_activated m1 now row) <> Some m2.
Proof. cbn. congruence. Qed.

(** The loop after it served the call of [ma] first: only the call of
    [mb] can still be started, and it is rejected. *)
Lemma loop_after_first (db : table) (k ma mb now : string) (row : Row)
    (ts : list server.task) (ib : nat) (l : server.loop) :
  db !! k = Some row ->
  ma <> mb ->
  ts !! ib = Some (server.Waiting (main.mkReq k mb)) ->
  (forall j t, j <> ib -> ts !! j = Some t -> server.finished t) ->
  rtc server.loop_step
    (server.mkLoop (<[k := sqlite3.set_activated ma now row]> db) ts) l ->
  Forall server.finished (server.tasks l) ->
  l = server.mkLoop (<[k := sqlite3.set_activated ma now row]> db)
        (<[ib := server.Finished
                   (Raise (HTTPException 403 main.detail_other_device))]> ts).
Proof.
  intros Hk Hne Hib Hothers Hrun Hfin.
  inversion Hrun as [|? l1 ? (i & now' & Hnext) Hrest]; subst.
  - exfalso. cbn in Hfin. rewrite Forall_lookup in Hfin.
    by apply (Hfin ib _ Hib).
  - unfold server.loop_next in Hnext. cbn [server.tasks server.db] in Hnext.
    destruct (ts !! i) as [[req|r]|] eqn:Hi; [|done|done].
    destruct (decide (i = ib)) as [->|Hneq].
    2: { destruct (Hothers i _ Hneq Hi). }
    rewrite Hib in Hi. injection Hi as <-.
    rewrite (activate_other _ now' k mb (sqlite3.set_activated ma now row)) in Hnext;
      [| apply lookup_insert_eq | done | by apply activated_row_other].
    injection Hnext as <-.
    inversion Hrest as [|? l2 ? (j & now2 & Hnext2) _]; subst; [done|].
    exfalso. unfold server.loop_next in Hnext2.
    cbn [server.tasks server.db] in Hnext2.
    destruct (decide (j = ib)) as [->|Hneq].
    + rewrite list_lookup_insert_eq in Hnext2; [done|].
      by apply lookup_lt_Some in Hib.
    + rewrite list_lookup_insert_ne in Hnext2 by done.
      destruct (ts !! j) as [[req|r]|] eqn:Hj; [|done|done].
      destruct (Hothers j _ Hneq Hj).
Qed.

(** C1, as the server behaves: when the two first activations of a key,
    from machines [m1 <> m2], are served by one server process, which runs
    each handler to its end before it starts the next, then in whichever
    order (and at whatever times) the loop starts them both calls
    complete, exactly one returns success and the other the 403 error, and
    afterwards the record has [is_used = 1] with [hwid] the machine of the
    successful call. *)
Theorem one_process_race_one_winner (db : table) (k m1 m2 : string) (row : Row) :
  db !! k = Some row ->
  licenses.is_used row = 0 ->
  m1 <> m2 ->
  let start :=
    server.mkLoop db [server.Waiting (main.mkReq k m1);
                      server.Waiting (main.mkReq k m2)] in
  (exists final,
     rtc server.loop_step start final /\
     Forall server.finished (server.tasks final)) /\
  (forall final,
     rtc server.loop_step start final ->
     Forall server.finished (server.tasks final) ->
     exists r1 r2,
       server.tasks final = [server.Finished r1; server.Finished r2] /\
       server.one_winner (licenses.valid_days row) m1 m2 r1 r2
         (server.db final !! k)).
Proof.
  intros Hk Hu Hne start. subst start.
  assert (Hu1 : licenses.is_used row <> 1) by lia.
  split.
  - eexists. split.
    + eapply rtc_l.
      { exists 0%nat, "". unfold server.loop_next.
        cbn [server.tasks server.db lookup list_lookup].
        rewrite (activate_first db "" k m1 row Hk Hu1). reflexivity. }
      eapply rtc_l; [|apply rtc_refl].
      exists 1%nat, "". unfold server.loop_next.
      cbn [server.tasks server.db lookup list_lookup insert list_insert].
      rewrite (activate_other _ "" k m2 (sqlite3.set_activated m1 "" row));
        [reflexivity | apply lookup_insert_eq | done | by apply activated_row_other].
    + cbn. repeat constructor.
  - intros final Hrun Hfin.
    inversion Hrun as [|? l1 ? (i & now & Hnext) Hrest]; subst.
    { exfalso. apply Forall_cons in Hfin as [[] _]. }
    unfold server.loop_next in Hnext. cbn [server.tasks server.db] in Hnext.
    destruct i as [|[|i]]; cbn [lookup list_lookup] in Hnext; [| |done].
    + rewrite (activate_first db now k m1 row Hk Hu1) in Hnext.
      injection Hnext as <-.
      apply (loop_after_first db k m1 m2 now row _ 1%nat) in Hrest; try done.
      2: { intros [|[|j]] t Hj; cbn; try done. by intros [= <-]. }
      subst final. eexists _, _. split; [reflexivity|].
      left. split; [done|]. split; [done|].
      eexists. split; [apply lookup_insert_eq | done].
    + rewrite (activate_first db now k m2 row Hk Hu1) in Hnext.
      injection Hnext as <-.
      apply (loop_after_first db k m2 m1 now row _ 0%nat) in Hrest; try done.
      2: { intros [|[|j]] t Hj; cbn; try done. by intros [= <-]. }
      subst final. eexists _, _. split; [reflexivity|].
      right. split; [done|]. split; [done|].
      eexists. split; [apply lookup_insert_eq | done].
Qed.

Lemma one_process_race_one_winner_witness :
  sample_db !! "K0" = Some sample_row /\
  "m1" <> "m2" /\
  let start :=
    server.mkLoop sample_db [server.Waiting (main.mkReq "K0" "m1");
                             server.Waiting (main.mkReq "K0" "m2")] in
  (exists final,
     rtc server.loop_step start final /\
     Forall server.finished (server.tasks final)) /\
  (forall final,
     rtc server.loop_step start final ->
     Forall server.finished (server.tasks final) ->
     exists r1 r2,
       server.tasks final = [server.Finished r1; server.Finished r2] /\
       server.one_winner 30 "m1" "m2" r1 r2 (server.db final !! "K0")).
Proof.
  split; [vm_compute; reflexivity |]. split; [discriminate |].
  apply (one_process_race_one_winner sample_db "K0" "m1" "m2" sample_row);
    [vm_compute; reflexivity | reflexivity | discriminate].
Defined.

(** * Further properties of the two programs *)

(** ** [activate] on any database *)

(** The four ways a call of [activate] ends. *)
Lemma activate_run_cases (db : table) (now : string) (req : main.ActivationRequest) :
  sqlite3.run (main.activate now req) db =
  match db !! main.key req with
  | None =>
      (Raise (HTTPException 404 main.detail_not_found), db,
       [sqlite3.EvConnect; sqlite3.EvSelect (main.key req); sqlite3.EvClose])
  | Some row =>
      if decide (licenses.is_used row = 1) then
        if decide (licenses.hwid row = Some (main.hwid req)) then
          (Return (main.success main.msg_welcome_back (licenses.valid_days row)), db,
           [sqlite3.EvConnect; sqlite3.EvSelect (main.key req); sqlite3.EvClose])
        else
          (Raise (HTTPException 403 main.detail_other_device), db,
           [sqlite3.EvConnect; sqlite3.EvSelect (main.key req); sqlite3.EvClose])
      else
        (Return (main.success main.msg_activated (licenses.valid_days row)),
         <[main.key req := sqlite3.set_activated (main.hwid req) now row]> db,
         [sqlite3.EvConnect; sqlite3.EvSelect (main.key req);
          sqlite3.EvUpdate (main.key req); sqlite3.EvCommit; sqlite3.EvClose])
  end.
Proof.
  destruct req as [k m]. cbn [main.key main.hwid].
  destruct (db !! k) as [row|] eqn:Hk.
  - repeat case_decide.
    + by apply activate_again with (row := row).
    + by apply activate_other with (row := row).
    + by apply activate_first with (row := row).
  - by apply activate_unknown.
Qed.

(** X1: a key that is not in the table is answered with the 404 error;
    the call only reads (connect, one SELECT, close) and the database is
    left as it was. *)
Theorem activate_unknown_key_rejected (db : table) (now k m : string) :
  db !! k = None ->
  sqlite3.run (main.activate now (main.mkReq k m)) db =
  (Raise (HTTPException 404 main.detail_not_found), db,
   [sqlite3.EvConnect; sqlite3.EvSelect k; sqlite3.EvClose]).
Proof. intros Hk. by rewrite activate_run_cases; cbn; rewrite Hk. Qed.

Lemma activate_unknown_key_rejected_witness :
  sample_db !! "k0" = None /\
  sqlite3.run (main.activate "2026-02-01T10:00:00" (main.mkReq "k0" "m1")) sample_db =
  (Raise (HTTPException 404 main.detail_not_found), sample_db,
   [sqlite3.EvConnect; sqlite3.EvSelect "k0"; sqlite3.EvClose]).
Proof.
  split; [vm_compute; reflexivity |].
  apply (activate_unknown_key_rejected sample_db "2026-02-01T10:00:00" "k0" "m1").
  vm_compute; reflexivity.
Defined.

(** X2: whatever the request and the database, [activate] neither adds
    nor removes a record, and it leaves the record of every key other than
    the requested one exactly as it was. *)
Theorem activate_touches_one_record (db : table) (now : string)
    (req : main.ActivationRequest) :
  dom (db_after (Activate now req) db) = dom db /\
  forall k', k' <> main.key req ->
    db_after (Activate now req) db !! k' = db !! k'.
Proof.
  unfold db_after. rewrite activate_run_cases.
  destruct (db !! main.key req) as [row|] eqn:Hk; [|done].
  destruct (decide (licenses.is_used row = 1)); [by destruct (decide _) |].
  cbn. split.
  - rewrite dom_insert_L. apply elem_of_dom_2 in Hk.
    by apply subseteq_union_1_L, singleton_subseteq_l.
  - intros k' Hne. by rewrite lookup_insert_ne.
Qed.

(** X3: a call of [activate] writes only when it performs the first
    binding: on an unknown key, or on a record whose [is_used] is 1
    (whichever machine asks), the database is unchanged and the call made
    no INSERT, UPDATE or commit. *)
Theorem activate_read_only_unless_unused (db : table) (now : string)
    (req : main.ActivationRequest) :
  (db !! main.key req = None \/
   exists row, db !! main.key req = Some row /\ licenses.is_used row = 1) ->
  (sqlite3.run (main.activate now req) db).1.2 = db /\
  forallb (fun ev => negb (is_write ev))
    (sqlite3.run (main.activate now req) db).2 = true.
Proof.
  intros Hcase. rewrite activate_run_cases.
  destruct Hcase as [Hk|(row & Hk & Hu)]; rewrite Hk; [done|].
  by repeat case_decide.
Qed.

Lemma activate_read_only_unless_unused_witness :
  (sample_bound_db !! "K0" = None \/
   exists row, sample_bound_db !! "K0" = Some row /\ licenses.is_used row = 1) /\
  (sqlite3.run (main.activate "2026-03-01T00:00:00" (main.mkReq "K0" "m2"))
     sample_bound_db).1.2 = sample_bound_db.
Proof.
  assert (H : sample_bound_db !! "K0" = None \/
              exists row, sample_bound_db !! "K0" = Some row /\
                          licenses.is_used row = 1).
  { right. exists sample_bound_row. split; [vm_compute; reflexivity | reflexivity]. }
  split; [exact H |].
  apply (activate_read_only_unless_unused sample_bound_db "2026-03-01T00:00:00"
           (main.mkReq "K0" "m2") H).
Defined.

(** X4: every call of [activate], however it ends, closes its connection:
    the last call it makes on the database is [close]. *)
Theorem activate_always_closes (db : table) (now : string)
    (req : main.ActivationRequest) :
  last (sqlite3.run (main.activate now req) db).2 = Some sqlite3.EvClose.
Proof.
  rewrite activate_run_cases.
  destruct (db !! main.key req) as [row|]; [|done].
  by repeat case_decide.
Qed.

(** X5: serving the same request a second time changes nothing more: the
    database after two calls is the database after the first one (the
    [hwid] and [activated_at] written by the first call stay). *)
Theorem activate_twice_same_db (db : table) (now1 now2 : string)
    (req : main.ActivationRequest) :
  db_after (Activate now2 req) (db_after (Activate now1 req) db) =
  db_after (Activate now1 req) db.
Proof.
  unfold db_after. rewrite (activate_run_cases db).
  destruct (db !! main.key req) as [row|] eqn:Hk.
  - destruct (decide (licenses.is_used row = 1)) as [Hu|Hu].
    + assert (Hsame : (sqlite3.run (main.activate now1 req) db).1.2 = db).
      { rewrite activate_run_cases, Hk. by repeat case_decide. }
      case_decide; cbn [fst snd]; rewrite activate_run_cases, Hk;
        by repeat case_decide.
    + cbn [fst snd]. rewrite activate_run_cases, lookup_insert_eq.
      by repeat case_decide.
  - cbn [fst snd]. by rewrite activate_run_cases, Hk.
Qed.

(** ** Batches of keys on any database *)

Lemma insert_batch_other e days note n i (t : table) k :
  k ∉ keys_from e i n -> insert_batch e days note n i t !! k = t !! k.
Proof.
  revert i t. induction n as [|n IH]; intros i t Hk; [done|].
  rewrite keys_from_S in Hk. apply not_elem_of_cons in Hk as [Hne Hk].
  cbn [insert_batch]. rewrite IH by done. by rewrite lookup_insert_ne.
Qed.

Lemma insert_batch_lookup e days note n i (t : table) j :
  NoDup (keys_from e i n) -> (j < n)%nat ->
  insert_batch e days note n i t !! upper (uuid4 e (i + j)) =
  Some (sqlite3.inserted_row days (now e (i + j)) note).
Proof.
  revert i t j. induction n as [|n IH]; intros i t j Hnd Hj; [lia|].
  rewrite keys_from_S in Hnd. apply NoDup_cons in Hnd as [Hnotin Hnd].
  cbn [insert_batch]. destruct j as [|j].
  - rewrite Nat.add_0_r, insert_batch_other by done. apply lookup_insert_eq.
  - replace (i + S j)%nat with (S i + j)%nat by lia. apply IH; [done | lia].
Qed.

Lemma insert_batch_subseteq e days note n i (t : table) :
  (forall k, k ∈ keys_from e i n -> t !! k = None) ->
  t ⊆ insert_batch e days note n i t.
Proof.
  intros Hfresh. apply map_subseteq_spec. intros k r Hk.
  rewrite insert_batch_other; [done|].
  intros Hin. apply Hfresh in Hin. congruence.
Qed.

(** The loop never touches the committed content, whatever it meets. *)
Lemma generate_loop_disk e days note n i acc s :
  sqlite3.disk (sqlite3.exec (main.generate_loop e days note n i acc) s).2 =
  sqlite3.disk s.
Proof.
  revert i acc s. induction n as [|n IH]; intros i acc s; [done|].
  cbn [main.generate_loop]. rewrite exec_bind. cbn.
  destruct (negb _); [done|].
  destruct (sqlite3.view s !! upper (uuid4 e i)); [done|].
  by rewrite IH.
Qed.

(** When the loop returns, every key it drew was new and no two of them
    were equal. *)
Lemma generate_loop_returns e days note n i acc s ks s' :
  sqlite3.exec (main.generate_loop e days note n i acc) s = (Return ks, s') ->
  (n = 0%nat \/ sqlite3.fits_int64 days = true) /\
  NoDup (keys_from e i n) /\
  (forall k, k ∈ keys_from e i n -> sqlite3.view s !! k = None).
Proof.
  revert i acc s. induction n as [|n IH]; intros i acc s Hex.
  - split; [by left|]. split; [constructor|]. intros k Hk.
    by apply not_elem_of_nil in Hk.
  - cbn [main.generate_loop] in Hex. rewrite exec_bind in Hex. cbn in Hex.
    destruct (sqlite3.fits_int64 days) eqn:Hfit; [|done]. cbn in Hex.
    destruct (sqlite3.view s !! upper (uuid4 e i)) eqn:Hlk; [done|].
    apply IH in Hex as (_ & Hnd & Hfresh). cbn in Hfresh.
    assert (Hnotin : upper (uuid4 e i) ∉ keys_from e (S i) n).
    { intros Hin. apply Hfresh in Hin. by rewrite lookup_insert_eq in Hin. }
    split; [by right|]. rewrite keys_from_S. split; [by constructor|].
    intros k Hk. apply elem_of_cons in Hk as [->|Hk]; [done|].
    specialize (Hfresh k Hk). rewrite lookup_insert_ne in Hfresh; [done|].
    by intros <-.
Qed.

(** How a run of the loop started outside a transaction ends: with an
    exception and nothing to commit, or with every row of the batch
    waiting to be committed. *)
Lemma generate_loop_cases e days note n s :
  sqlite3.pending s = None ->
  let res := sqlite3.exec (main.generate_loop e days note n 0 []) s in
  sqlite3.disk res.2 = sqlite3.disk s /\
  ((exists ex, res.1 = Raise ex) \/
   (res.1 = Return (keys_from e 0 n) /\
    sqlite3.view res.2 = insert_batch e days note n 0 (sqlite3.disk s) /\
    NoDup (keys_from e 0 n) /\
    (forall k, k ∈ keys_from e 0 n -> sqlite3.disk s !! k = None))).
Proof.
  intros Hp res. subst res. split; [apply generate_loop_disk|].
  assert (Hview : sqlite3.view s = sqlite3.disk s).
  { unfold sqlite3.view. by rewrite Hp. }
  destruct (sqlite3.exec _ s) as [[ks|ex] s'] eqn:Hex; [|left; by eexists].
  right. pose proof (generate_loop_returns _ _ _ _ _ _ _ _ _ Hex)
    as (Hfit & Hnd & Hfresh).
  rewrite Hview in Hfresh. destruct Hfit as [->|Hfit].
  - cbn in Hex. injection Hex as <- <-. cbn. by rewrite Hview.
  - destruct (generate_loop_inserts e days note n 0 [] s Hfit Hnd) as
      (s2 & Hex2 & _ & Hv); [by rewrite Hview|].
    rewrite Hex in Hex2. injection Hex2 as -> ->. cbn. by rewrite Hv, Hview.
Qed.

(** The trace is only a record: it never influences what a call returns
    or does to the database. *)
Lemma exec_cmd_same {B} (c : sqlite3.cmd B) s1 s2 :
  same_db s1 s2 ->
  (sqlite3.exec_cmd c s1).1 = (sqlite3.exec_cmd c s2).1 /\
  same_db (sqlite3.exec_cmd c s1).2 (sqlite3.exec_cmd c s2).2.
Proof.
  destruct s1 as [d1 p1 t1], s2 as [d2 p2 t2]. unfold same_db. cbn.
  intros [-> ->]. destruct c; cbn; try done.
  destruct (negb _); [done|]. unfold sqlite3.view. cbn.
  by destruct (default d2 p2 !! key_str).
Qed.

Lemma exec_same {A} (p : sqlite3.prog A) s1 s2 :
  same_db s1 s2 ->
  (sqlite3.exec p s1).1 = (sqlite3.exec p s2).1 /\
  same_db (sqlite3.exec p s1).2 (sqlite3.exec p s2).2.
Proof.
  revert s1 s2. induction p as [a|e|B c k IH]; intros s1 s2 Hs; cbn; try done.
  destruct (exec_cmd_same c s1 s2 Hs) as [Hr Hs'].
  destruct (sqlite3.exec_cmd c s1) as [[b1|e1] s1'],
           (sqlite3.exec_cmd c s2) as [[b2|e2] s2']; cbn in Hr, Hs'; try done.
  - injection Hr as ->. by apply IH.
  - by injection Hr as ->.
Qed.

(** Both issuing functions, on any input: the outcome of the loop decides
    everything. *)
Lemma generate_license_run e count days note db :
  sqlite3.run (main.generate_license e main.ADMIN_PASSWORD count days note) db =
  match sqlite3.exec (main.generate_loop e days note (Z.to_nat count) 0 [])
          (sqlite3.mkState db None [sqlite3.EvConnect]) with
  | (Return ks, s') =>
      (Return (main.mkHTML (main.Generated count ks) 200), sqlite3.view s',
       (sqlite3.trace s' ++ [sqlite3.EvCommit; sqlite3.EvClose])%list)
  | (Raise ex, s') => (Raise ex, sqlite3.disk s', sqlite3.trace s')
  end.
Proof.
  unfold sqlite3.run, main.generate_license. case_decide; [done|].
  rewrite exec_bind. cbn. rewrite exec_bind.
  destruct (sqlite3.exec _ _) as [[ks|ex] s']; [|done].
  cbn. by rewrite <- app_assoc.
Qed.

Lemma generate_keys_run e count days note db :
  sqlite3.run (manage.generate_keys e count days note) db =
  match sqlite3.exec (main.generate_loop e days note (Z.to_nat count) 0 [])
          (sqlite3.mkState db None
             [sqlite3.EvConnect; sqlite3.EvCreateTable; sqlite3.EvCommit]) with
  | (Return ks, s') =>
      (Return ks, sqlite3.view s',
       (sqlite3.trace s' ++ [sqlite3.EvCommit; sqlite3.EvClose])%list)
  | (Raise ex, s') => (Raise ex, sqlite3.disk s', sqlite3.trace s')
  end.
Proof.
  unfold sqlite3.run, manage.generate_keys.
  rewrite exec_bind. cbn. rewrite exec_bind, generate_keys_loop_exec.
  destruct (sqlite3.exec _ _) as [[ks|ex] s']; [|done].
  cbn. by rewrite <- app_assoc.
Qed.

(** X6: with the right password, a [days] that fits SQLite's INTEGER, and
    drawn keys that are pairwise distinct and not yet in the table,
    [generate_license] answers 200 with the keys in the order they were
    drawn; each key is then stored as an unused record ([is_used = 0],
    no [hwid], no [activated_at]) carrying the given [days] and [note] and
    the time of its own iteration; the table has grown by exactly the
    number of iterations, and every earlier record is unchanged. *)
Theorem generate_license_creates_batch (e : env) (count days : Z) (note : string)
    (db : table) :
  sqlite3.fits_int64 days = true ->
  NoDup (keys_from e 0 (Z.to_nat count)) ->
  (forall k, k ∈ keys_from e 0 (Z.to_nat count) -> db !! k = None) ->
  exists db' tr,
    sqlite3.run (main.generate_license e main.ADMIN_PASSWORD count days note) db =
      (Return (main.mkHTML (main.Generated count (keys_from e 0 (Z.to_nat count))) 200),
       db', tr) /\
    (forall j, (j < Z.to_nat count)%nat ->
       db' !! upper (uuid4 e j) =
       Some (licenses.mkRow 0 None (now e j) days None note)) /\
    size db' = (size db + Z.to_nat count)%nat /\
    db ⊆ db'.
Proof.
  intros Hfit Hnd Hfresh.
  destruct (generate_license_inserts e count days note db Hfit Hnd Hfresh)
    as [tr Htr].
  eexists _, tr. split; [exact Htr|]. split; [|split].
  - intros j Hj. by apply (insert_batch_lookup e days note _ 0 db j).
  - by apply insert_batch_size.
  - by apply insert_batch_subseteq.
Qed.

Lemma generate_license_creates_batch_witness :
  sqlite3.fits_int64 30 = true /\
  NoDup (keys_from sample_env 0 (Z.to_nat 2)) /\
  exists db' tr,
    sqlite3.run (main.generate_license sample_env main.ADMIN_PASSWORD 2 30 "acme") ∅ =
      (Return (main.mkHTML
                 (main.Generated 2 (keys_from sample_env 0 (Z.to_nat 2))) 200),
       db', tr) /\
    (forall j, (j < Z.to_nat 2)%nat ->
       db' !! upper (uuid4 sample_env j) =
       Some (licenses.mkRow 0 None (now sample_env j) 30 None "acme")) /\
    size db' = (size (∅ : table) + Z.to_nat 2)%nat /\
    (∅ : table) ⊆ db'.
Proof.
  assert (Hnd : NoDup (keys_from sample_env 0 (Z.to_nat 2))).
  { apply (bool_decide_unpack _). by vm_compute. }
  split; [reflexivity |]. split; [exact Hnd |].
  apply (generate_license_creates_batch sample_env 2 30 "acme" ∅ eq_refl Hnd).
  intros k _. apply lookup_empty.
Defined.

(** X7: whenever [generate_license] answers with the page of generated
    keys, the keys on it are as many as [count] asked for (none when
    [count] is not positive), pairwise distinct, and none of them was in
    the table before the call. *)
Theorem generated_keys_new_and_distinct (e : env) (count days : Z) (note : string)
    (db db' : table) (resp : main.HTMLResponse) (tr : list sqlite3.db_event) :
  sqlite3.run (main.generate_license e main.ADMIN_PASSWORD count days note) db =
    (Return resp, db', tr) ->
  exists keys,
    resp = main.mkHTML (main.Generated count keys) 200 /\
    length keys = Z.to_nat count /\
    NoDup keys /\
    (forall k, k ∈ keys -> db !! k = None /\ is_Some (db' !! k)).
Proof.
  rewrite generate_license_run.
  pose proof (generate_loop_cases e days note (Z.to_nat count)
                (sqlite3.mkState db None [sqlite3.EvConnect]) eq_refl) as [_ Hc].
  cbn in Hc. destruct (sqlite3.exec _ _) as [[ks|ex] s']; [|done].
  destruct Hc as [[ex Hex]|(Hks & Hv & Hnd & Hfresh)]; [done|].
  cbn in Hks, Hv. injection Hks as ->. intros [= <- <- <-].
  eexists. split; [done|]. split.
  { unfold keys_from. by rewrite length_map, length_seq. }
  split; [done|]. intros k Hk. split; [by apply Hfresh|].
  rewrite Hv. unfold keys_from in Hk. apply list_elem_of_fmap in Hk as (j & -> & Hj).
  apply elem_of_seq in Hj.
  rewrite <- (Nat.add_0_l j) at 1.
  rewrite (insert_batch_lookup e days note _ 0 db j); [eauto | done | lia].
Qed.

Lemma generated_keys_new_and_distinct_witness :
  exists keys,
    main.mkHTML (main.Generated 2 ["K0"; "K1"]) 200 =
      main.mkHTML (main.Generated 2 keys) 200 /\
    length keys = Z.to_nat 2 /\
    NoDup keys /\
    (forall k, k ∈ keys -> (∅ : table) !! k = None /\ is_Some (sample_db !! k)).
Proof.
  apply (generated_keys_new_and_distinct sample_env 2 30 "acme" ∅ sample_db
           (main.mkHTML (main.Generated 2 ["K0"; "K1"]) 200)
           [sqlite3.EvConnect; sqlite3.EvInsert "K0"; sqlite3.EvInsert "K1";
            sqlite3.EvCommit; sqlite3.EvClose]).
  vm_compute. reflexivity.
Defined.

(** X8: a request to [/admin/generate] never leaves part of a batch
    behind: whatever the password, the parameters, the keys drawn and the
    table, afterwards the table is either exactly as before or holds the
    rows of all iterations, one more record per iteration. *)
Theorem batch_all_or_nothing (e : env) (password : string) (count days : Z)
    (note : string) (db : table) :
  db_after (Generate e password count days note) db = db \/
  (db_after (Generate e password count days note) db =
     insert_batch e days note (Z.to_nat count) 0 db /\
   size (db_after (Generate e password count days note) db) =
     (size db + Z.to_nat count)%nat).
Proof.
  unfold db_after. destruct (decide (password = main.ADMIN_PASSWORD)) as [->|Hpw].
  2: { left. unfold sqlite3.run, main.generate_license. by case_decide. }
  rewrite generate_license_run.
  pose proof (generate_loop_cases e days note (Z.to_nat count)
                (sqlite3.mkState db None [sqlite3.EvConnect]) eq_refl) as [Hd Hc].
  cbn in Hd, Hc. destruct (sqlite3.exec _ _) as [[ks|ex] s']; cbn in *.
  - right. destruct Hc as [[ex Hex]|(_ & Hv & Hnd & Hfresh)]; [done|].
    rewrite Hv. split; [done|]. by apply insert_batch_size.
  - by left.
Qed.

(** X9: with the right password and at least one iteration, a [days]
    outside SQLite's 64-bit INTEGER makes the first INSERT call raise
    [OverflowError]: that call is the only one made after connecting, no
    row is written and the table is unchanged. *)
Theorem generate_license_days_overflow (e : env) (count days : Z) (note : string)
    (db : table) :
  0 < count ->
  sqlite3.fits_int64 days = false ->
  sqlite3.run (main.generate_license e main.ADMIN_PASSWORD count days note) db =
  (Raise OverflowError, db,
   [sqlite3.EvConnect; sqlite3.EvInsert (upper (uuid4 e 0))]).
Proof.
  intros Hc Hfit. rewrite generate_license_run.
  destruct (Z.to_nat count) as [|n] eqn:Hn; [lia|].
  cbn [main.generate_loop]. rewrite exec_bind. cbn. by rewrite Hfit.
Qed.

Lemma generate_license_days_overflow_witness :
  0 < 3 /\
  sqlite3.fits_int64 (2 ^ 63) = false /\
  sqlite3.run (main.generate_license sample_env main.ADMIN_PASSWORD 3 (2 ^ 63) "acme")
    sample_db =
  (Raise OverflowError, sample_db, [sqlite3.EvConnect; sqlite3.EvInsert "K0"]).
Proof.
  split; [lia |]. split; [reflexivity |].
  apply (generate_license_days_overflow sample_env 3 (2 ^ 63) "acme" sample_db);
    [lia | reflexivity].
Defined.

(** X10: with the right password and a [count] that is zero or negative
    the loop body never runs: the answer is the 200 page with no key,
    nothing is inserted and the table is unchanged, whatever [days] is. *)
Theorem generate_license_nonpositive_count (e : env) (count days : Z)
    (note : string) (db : table) :
  count <= 0 ->
  sqlite3.run (main.generate_license e main.ADMIN_PASSWORD count days note) db =
  (Return (main.mkHTML (main.Generated count []) 200), db,
   [sqlite3.EvConnect; sqlite3.EvCommit; sqlite3.EvClose]).
Proof.
  intros Hc. rewrite generate_license_run.
  replace (Z.to_nat count) with 0%nat by lia. done.
Qed.

Lemma generate_license_nonpositive_count_witness :
  -4 <= 0 /\
  sqlite3.run (main.generate_license sample_env main.ADMIN_PASSWORD (-4) 0 "acme")
    sample_db =
  (Return (main.mkHTML (main.Generated (-4) []) 200), sample_db,
   [sqlite3.EvConnect; sqlite3.EvCommit; sqlite3.EvClose]).
Proof.
  split; [lia |].
  apply (generate_license_nonpositive_count sample_env (-4) 0 "acme" sample_db).
  lia.
Defined.

(** X11: the web form and the command-line function issue keys the same
    way: for the same draws, parameters and table, [generate_keys] and
    [generate_license] (with the right password) leave the same table,
    raise the same exception if any, and return the same keys. *)
Theorem issuing_paths_agree (e : env) (count days : Z) (note : string)
    (db : table) :
  (sqlite3.run (manage.generate_keys e count days note) db).1.2 =
  (sqlite3.run (main.generate_license e main.ADMIN_PASSWORD count days note) db).1.2 /\
  (forall ex,
     (sqlite3.run (manage.generate_keys e count days note) db).1.1 = Raise ex <->
     (sqlite3.run (main.generate_license e main.ADMIN_PASSWORD count days note) db).1.1
       = Raise ex) /\
  (forall keys,
     (sqlite3.run (manage.generate_keys e count days note) db).1.1 = Return keys <->
     (sqlite3.run (main.generate_license e main.ADMIN_PASSWORD count days note) db).1.1
       = Return (main.mkHTML (main.Generated count keys) 200)).
Proof.
  rewrite generate_keys_run, generate_license_run.
  destruct (exec_same (main.generate_loop e days note (Z.to_nat count) 0 [])
              (sqlite3.mkState db None
                 [sqlite3.EvConnect; sqlite3.EvCreateTable; sqlite3.EvCommit])
              (sqlite3.mkState db None [sqlite3.EvConnect])) as [Hr [Hd Hp]];
    [done|].
  destruct (sqlite3.exec _ (sqlite3.mkState db None [_; _; _])) as [r1 s1],
           (sqlite3.exec _ (sqlite3.mkState db None [_])) as [r2 s2].
  cbn in Hr, Hd, Hp. subst r2.
  destruct r1 as [ks|ex]; cbn.
  - split; [unfold sqlite3.view; by rewrite Hd, Hp|].
    split; [intros ex0; split; done|]. intros keys. split; intros [= ->]; done.
  - split; [exact Hd|]. split; [|intros keys; split; done].
    intros ex0. split; intros [= ->]; done.
Qed.

(** ** The command-line tool *)

(** With parameters that pass both checks, [main] is [generate_keys]
    followed by the printing of the keys. *)
Lemma manage_main_run e c d n db :
  1 <= c <= 100 -> d = -1 \/ 0 < d ->
  sqlite3.run (manage.main e (manage.mkArgs "gen" c d n)) db =
  match sqlite3.run (manage.generate_keys e c d n) db with
  | (Return keys, db', tr) =>
      (Return (0, [manage.Stdout (String.concat manage.newline keys)]), db', tr)
  | (Raise ex, db', tr) => (Raise ex, db', tr)
  end.
Proof.
  intros Hc Hd. unfold manage.main.
  cbn [manage.command manage.count manage.days manage.note].
  case_decide; [|done].
  replace ((c <? 1) || (c >? 100)) with false
    by (symmetry; apply orb_false_iff; split; lia).
  replace (negb (d =? -1) && (d <=? 0)) with false.
  2: { symmetry. apply andb_false_iff.
       destruct Hd as [->|Hd]; [by left | right; lia]. }
  unfold sqlite3.run. rewrite exec_bind.
  by destruct (sqlite3.exec _ _) as [[keys|ex] s'].
Qed.

(** X12: the [gen] command with a [count] outside 1..100, or with a
    [days] that is neither -1 nor positive, exits with status 1 after
    printing one error line on stderr (the one about [count] when both are
    wrong); it makes no call on the database, which is unchanged. *)
Theorem manage_main_rejects_invalid (e : env) (c d : Z) (n : string) (db : table) :
  c < 1 \/ c > 100 \/ (d <> -1 /\ d <= 0) ->
  sqlite3.run (manage.main e (manage.mkArgs "gen" c d n)) db =
  (Return (1, [manage.Stderr
                 (if decide (c < 1 \/ c > 100)
                  then manage.err_count else manage.err_days)]), db, []).
Proof.
  intros Hbad. case_decide as Hc.
  - by apply manage_main_rejects_count.
  - apply manage_main_rejects_days; lia.
Qed.

Lemma manage_main_rejects_invalid_witness :
  (5 < 1 \/ 5 > 100 \/ (0 <> -1 /\ 0 <= 0)) /\
  sqlite3.run (manage.main sample_env (manage.mkArgs "gen" 5 0 "acme")) sample_db =
  (Return (1, [manage.Stderr manage.err_days]), sample_db, []).
Proof.
  split; [lia |].
  apply (manage_main_rejects_invalid sample_env 5 0 "acme" sample_db). lia.
Defined.



(** When [main], given a parsed Namespace, returns 0. *)
Lemma manage_main_returns_0 (e : env) (args : manage.Namespace) (db db' : table)
    (out : list manage.printed) (tr : list sqlite3.db_event) :
  sqlite3.run (manage.main e args) db = (Return (0, out), db', tr) ->
  manage.command args = "gen" /\
  1 <= manage.count args <= 100 /\
  (manage.days args = -1 \/ 0 < manage.days args) /\
  exists keys,
    out = [manage.Stdout (String.concat manage.newline keys)] /\
    Z.of_nat (length keys) = manage.count args /\
    Z.of_nat (size db') = Z.of_nat (size db) + manage.count args /\
    forall k, k ∈ keys ->
      db !! k = None /\
      exists r, db' !! k = Some r /\ licenses.valid_days r = manage.days args.
Proof.
  destruct args as [cmd c d n]. cbn [manage.command manage.count manage.days].
  intros Hrun.
  assert (Hcmd : cmd = "gen").
  { unfold manage.main in Hrun. cbn in Hrun. by case_decide. }
  subst cmd. split; [done|].
  assert (Hc : 1 <= c <= 100).
  { destruct (decide (c < 1 \/ c > 100)) as [Hbad|]; [|lia].
    by rewrite manage_main_rejects_count in Hrun. }
  split; [done|].
  assert (Hd : d = -1 \/ 0 < d).
  { destruct (decide (d = -1)); [by left|]. destruct (decide (d <= 0)); [|lia].
    by rewrite manage_main_rejects_days in Hrun. }
  split; [done|].
  rewrite manage_main_run, generate_keys_run in Hrun by done.
  pose proof (generate_loop_cases e d n (Z.to_nat c)
                (sqlite3.mkState db None
                   [sqlite3.EvConnect; sqlite3.EvCreateTable; sqlite3.EvCommit])
                eq_refl) as [_ Hcases].
  cbn in Hcases. destruct (sqlite3.exec _ _) as [[ks|ex] s']; [|done].
  destruct Hcases as [[ex Hex]|(Hks & Hv & Hnd & Hfresh)]; [done|].
  cbn in Hks, Hv. injection Hks as ->. injection Hrun as <- <- <-.
  eexists. split; [done|]. split.
  { unfold keys_from. rewrite length_map, length_seq. lia. }
  split. { rewrite Hv, insert_batch_size by done. lia. }
  intros k Hk. split; [by apply Hfresh|]. rewrite Hv.
  unfold keys_from in Hk. apply list_elem_of_fmap in Hk as (j & -> & Hj).
  apply elem_of_seq in Hj. eexists. split.
  - rewrite <- (Nat.add_0_l j) at 1.
    apply (insert_batch_lookup e d n _ 0 db j); [done | lia].
  - done.
Qed.

(** X14: whenever the tool exits with status 0, either argparse ended
    the run itself while parsing (as it does for [-h]), and then no call
    was made on the database, which is unchanged; or the arguments were
    parsed, the command was [gen] with a [count] between 1 and 100 and a
    [days] that is -1 or positive, exactly [count] keys were printed, and
    the table gained exactly [count] records, all carrying that [days]. *)
Theorem manage_script_exit_0 (e : env) (p : parse_args_result) (db db' : table)
    (out : list manage.printed) (tr : list sqlite3.db_event) :
  sqlite3.run (manage_script e p) db = (Return (0, out), db', tr) ->
  (p = SystemExit 0 out /\ db' = db /\ tr = []) \/
  (exists args,
     p = Parsed args /\
     manage.command args = "gen" /\
     1 <= manage.count args <= 100 /\
     (manage.days args = -1 \/ 0 < manage.days args) /\
     exists keys,
       out = [manage.Stdout (String.concat manage.newline keys)] /\
       Z.of_nat (length keys) = manage.count args /\
       Z.of_nat (size db') = Z.of_nat (size db) + manage.count args /\
       forall k, k ∈ keys ->
         db !! k = None /\
         exists r, db' !! k = Some r /\ licenses.valid_days r = manage.days args).
Proof.
  destruct p as [args|status out0]; cbn [manage_script]; intros Hrun.
  - right. exists args. split; [done|].
    by apply (manage_main_returns_0 e args db db' out tr).
  - left. unfold sqlite3.run in Hrun. cbn in Hrun. by injection Hrun as -> -> <- <-.
Qed.

Lemma manage_script_exit_0_witness :
  (Parsed (manage.mkArgs "gen" 2 30 "acme") =
     SystemExit 0 [manage.Stdout (String.concat manage.newline ["K0"; "K1"])] /\
   sample_db = ∅ /\
   [sqlite3.EvConnect; sqlite3.EvCreateTable; sqlite3.EvCommit;
    sqlite3.EvInsert "K0"; sqlite3.EvInsert "K1";
    sqlite3.EvCommit; sqlite3.EvClose] = []) \/
  (exists args,
     Parsed (manage.mkArgs "gen" 2 30 "acme") = Parsed args /\
     manage.command args = "gen" /\
     1 <= manage.count args <= 100 /\
     (manage.days args = -1 \/ 0 < manage.days args) /\
     exists keys,
       [manage.Stdout (String.concat manage.newline ["K0"; "K1"])] =
         [manage.Stdout (String.concat manage.newline keys)] /\
       Z.of_nat (length keys) = manage.count args /\
       Z.of_nat (size sample_db) = Z.of_nat (size (∅ : table)) + manage.count args /\
       forall k, k ∈ keys ->
         (∅ : table) !! k = None /\
         exists r, sample_db !! k = Some r /\ licenses.valid_days r = manage.days args).
Proof.
  apply (manage_script_exit_0 sample_env (Parsed (manage.mkArgs "gen" 2 30 "acme"))
           ∅ sample_db
           [manage.Stdout (String.concat manage.newline ["K0"; "K1"])]
           [sqlite3.EvConnect; sqlite3.EvCreateTable; sqlite3.EvCommit;
            sqlite3.EvInsert "K0"; sqlite3.EvInsert "K1";
            sqlite3.EvCommit; sqlite3.EvClose]).
  vm_compute. reflexivity.
Defined.

(** X15: the checks of the tool let through a [days] too large for
    SQLite's INTEGER: after the table was ensured, the first INSERT call
    raises [OverflowError]; no row is written and the table is
    unchanged. *)
Theorem manage_main_days_overflow (e : env) (c d : Z) (n : string) (db : table) :
  1 <= c <= 100 ->
  2 ^ 63 <= d ->
  sqlite3.run (manage.main e (manage.mkArgs "gen" c d n)) db =
  (Raise OverflowError, db,
   [sqlite3.EvConnect; sqlite3.EvCreateTable; sqlite3.EvCommit;
    sqlite3.EvInsert (upper (uuid4 e 0))]).
Proof.
  intros Hc Hd. rewrite manage_main_run, generate_keys_run by lia.
  destruct (Z.to_nat c) as [|m] eqn:Hm; [lia|].
  cbn [main.generate_loop]. rewrite exec_bind. cbn.
  replace (sqlite3.fits_int64 d) with false; [done|].
  symmetry. unfold sqlite3.fits_int64. apply andb_false_iff. right. lia.
Qed.

Lemma manage_main_days_overflow_witness :
  1 <= 1 <= 100 /\ 2 ^ 63 <= 2 ^ 63 /\
  sqlite3.run (manage.main sample_env (manage.mkArgs "gen" 1 (2 ^ 63) "")) sample_db =
  (Raise OverflowError, sample_db,
   [sqlite3.EvConnect; sqlite3.EvCreateTable; sqlite3.EvCommit;
    sqlite3.EvInsert "K0"]).
Proof.
  split; [lia |]. split; [lia |].
  apply (manage_main_days_overflow sample_env 1 (2 ^ 63) "" sample_db); lia.
Defined.

(** ** What no operation ever does to a record *)

Lemma generate_license_subseteq e password count days note db :
  db ⊆ (sqlite3.run (main.generate_license e password count days note) db).1.2.
Proof.
  destruct (decide (password = main.ADMIN_PASSWORD)) as [->|Hpw].
  2: { unfold sqlite3.run, main.generate_license. by case_decide. }
  rewrite generate_license_run.
  pose proof (generate_loop_cases e days note (Z.to_nat count)
                (sqlite3.mkState db None [sqlite3.EvConnect]) eq_refl) as [Hd Hc].
  cbn in Hd, Hc. destruct (sqlite3.exec _ _) as [[ks|ex] s']; cbn in *.
  - destruct Hc as [[ex Hex]|(_ & Hv & _ & Hfresh)]; [done|].
    rewrite Hv. by apply insert_batch_subseteq.
  - by rewrite Hd.
Qed.

Lemma manage_main_subseteq e args db :
  db ⊆ (sqlite3.run (manage.main e args) db).1.2.
Proof.
  destruct args as [cmd c d n].
  destruct (decide (cmd = "gen")) as [->|Hcmd].
  2: { unfold sqlite3.run, manage.main. cbn. by case_decide. }
  destruct (decide (c < 1 \/ c > 100)) as [Hc|Hc].
  { by rewrite manage_main_rejects_count. }
  destruct (decide (d <> -1 /\ d <= 0)) as [Hd|Hd].
  { rewrite manage_main_rejects_days; [done | lia | tauto | tauto]. }
  rewrite manage_main_run, generate_keys_run by lia.
  pose proof (generate_loop_cases e d n (Z.to_nat c)
                (sqlite3.mkState db None
                   [sqlite3.EvConnect; sqlite3.EvCreateTable; sqlite3.EvCommit])
                eq_refl) as [Hdisk Hcases].
  cbn in Hdisk, Hcases. destruct (sqlite3.exec _ _) as [[ks|ex] s']; cbn in *.
  - destruct Hcases as [[ex Hex]|(_ & Hv & _ & Hfresh)]; [done|].
    rewrite Hv. by apply insert_batch_subseteq.
  - by rewrite Hdisk.
Qed.

(** What an operation can have done to a record that was there before. *)
Lemma db_after_lookup o (db : table) k r :
  db !! k = Some r ->
  db_after o db !! k = Some r \/
  (licenses.is_used r <> 1 /\
   exists m now, db_after o db !! k = Some (sqlite3.set_activated m now r)).
Proof.
  intros Hk. destruct o as [now req|e password count days note|e args];
    cbn [db_after].
  - rewrite activate_run_cases.
    destruct (decide (main.key req = k)) as [<-|Hne].
    + rewrite Hk. destruct (decide (licenses.is_used r = 1)) as [Hu|Hu].
      * left. by destruct (decide _).
      * right. split; [done|]. eexists _, _. cbn. apply lookup_insert_eq.
    + left. destruct (db !! main.key req) as [row|]; [|done].
      destruct (decide (licenses.is_used row = 1)); [by destruct (decide _)|].
      cbn. by rewrite lookup_insert_ne.
  - left. by apply (lookup_weaken _ _ _ _ Hk), generate_license_subseteq.
  - left. by apply (lookup_weaken _ _ _ _ Hk), manage_main_subseteq.
Qed.

(** X16: once a record is bound ([is_used = 1]) no sequence of
    operations (activations from any machine, batches from the web form or
    the command line) changes any of its columns or removes it. *)
Theorem bound_record_never_changes (ops : list op) (db : table) (k : string)
    (r : Row) :
  db !! k = Some r ->
  licenses.is_used r = 1 ->
  db_after_all ops db !! k = Some r.
Proof.
  revert db. induction ops as [|o ops IH]; intros db Hk Hu; [done|].
  cbn. apply IH; [|done].
  destruct (db_after_lookup o db k r Hk) as [H|[Hne _]]; done.
Qed.

Lemma bound_record_never_changes_witness :
  sample_bound_db !! "K0" = Some sample_bound_row /\
  licenses.is_used sample_bound_row = 1 /\
  db_after_all
    [Activate "2026-03-01T00:00:00" (main.mkReq "K0" "m2");
     Generate sample_env main.ADMIN_PASSWORD 2 7 "again";
     Activate "2026-03-02T00:00:00" (main.mkReq "K0" "m1")]
    sample_bound_db !! "K0" = Some sample_bound_row.
Proof.
  split; [vm_compute; reflexivity |]. split; [reflexivity |].
  apply (bound_record_never_changes _ sample_bound_db "K0" sample_bound_row);
    [vm_compute; reflexivity | reflexivity].
Defined.

(** X17: no sequence of operations removes a record, and none changes
    the [created_at], [valid_days] or [note] it was inserted with. *)
Theorem record_kept_with_its_columns (ops : list op) (db : table) (k : string)
    (r : Row) :
  db !! k = Some r ->
  exists r',
    db_after_all ops db !! k = Some r' /\
    licenses.created_at r' = licenses.created_at r /\
    licenses.valid_days r' = licenses.valid_days r /\
    licenses.note r' = licenses.note r.
Proof.
  revert db r. induction ops as [|o ops IH]; intros db r Hk; [by exists r|].
  cbn. destruct (db_after_lookup o db k r Hk) as [H|(_ & m & now & H)].
  - by apply IH.
  - destruct (IH _ _ H) as (r' & Hr' & Hc & Hv & Hn). by exists r'.
Qed.

Lemma record_kept_with_its_columns_witness :
  sample_db !! "K0" = Some sample_row /\
  exists r',
    db_after_all
      [Activate "2026-02-01T10:00:00" (main.mkReq "K0" "m1");
       ManageGen sample_env (manage.mkArgs "gen" 1 7 "again")]
      sample_db !! "K0" = Some r' /\
    licenses.created_at r' = "2026-01-01T00:00:00" /\
    licenses.valid_days r' = 30 /\
    licenses.note r' = "acme".
Proof.
  split; [vm_compute; reflexivity |].
  apply (record_kept_with_its_columns _ sample_db "K0" sample_row).
  vm_compute; reflexivity.
Defined.

(** ** The values the columns take *)
Section row_invariant.
Variable P : Row -> Prop.
Hypothesis P_inserted : forall days now note,
  sqlite3.fits_int64 days = true -> P (sqlite3.inserted_row days now note).
Hypothesis P_activated : forall hwid now r,
  P r -> P (sqlite3.set_activated hwid now r).

Lemma exec_cmd_rows {B} (c : sqlite3.cmd B) s :
  map_Forall (fun _ => P) (sqlite3.disk s) ->
  map_Forall (fun _ => P) (sqlite3.view s) ->
  map_Forall (fun _ => P) (sqlite3.disk (sqlite3.exec_cmd c s).2) /\
  map_Forall (fun _ => P) (sqlite3.view (sqlite3.exec_cmd c s).2).
Proof.
  intros Hd Hv. destruct c; cbn; try done.
  - destruct (sqlite3.fits_int64 days) eqn:Hfit; cbn; [|done].
    destruct (sqlite3.view s !! key_str); [done|].
    split; [done|]. cbn. apply map_Forall_insert_2; [by apply P_inserted | done].
  - split; [done|]. cbn. intros j r'. destruct (decide (key_str = j)) as [<-|Hne].
    + rewrite lookup_alter_eq. destruct (sqlite3.view s !! key_str) eqn:Hlk; [|done].
      intros [= <-]. apply P_activated. by apply (Hv key_str).
    + rewrite lookup_alter_ne by done. apply Hv.
Qed.

Lemma exec_rows {A} (p : sqlite3.prog A) s :
  map_Forall (fun _ => P) (sqlite3.disk s) ->
  map_Forall (fun _ => P) (sqlite3.view s) ->
  map_Forall (fun _ => P) (sqlite3.disk (sqlite3.exec p s).2).
Proof.
  revert s. induction p as [a|e|B c k IH]; intros s Hd Hv; cbn; try done.
  destruct (exec_cmd_rows c s Hd Hv) as [Hd' Hv'].
  destruct (sqlite3.exec_cmd c s) as [[b|e] s']; [by apply IH | done].
Qed.

Lemma db_after_rows o db :
  map_Forall (fun _ => P) db -> map_Forall (fun _ => P) (db_after o db).
Proof.
  intros Hdb.
  assert (Hrun : forall A (p : sqlite3.prog A),
             map_Forall (fun _ => P) (sqlite3.run p db).1.2).
  { intros A p. unfold sqlite3.run.
    pose proof (exec_rows p (sqlite3.mkState db None []) Hdb Hdb) as H.
    by destruct (sqlite3.exec p _) as [r s']. }
  destruct o; cbn; apply Hrun.
Qed.

End row_invariant.

Lemma row_domain_inserted days now note :
  sqlite3.fits_int64 days = true ->
  row_domain_ok (sqlite3.inserted_row days now note).
Proof. intros Hfit. split; [by left | done]. Qed.

Lemma row_domain_activated hwid now r :
  row_domain_ok r -> row_domain_ok (sqlite3.set_activated hwid now r).
Proof. intros [_ Hfit]. split; [by right | done]. Qed.

(** X18: in every database state the operations can reach, each record
    has [is_used] equal to 0 or 1 and a [valid_days] within SQLite's
    64-bit INTEGER. *)
Theorem reachable_row_domains (db : table) (k : string) (r : Row) :
  reachable db ->
  db !! k = Some r ->
  (licenses.is_used r = 0 \/ licenses.is_used r = 1) /\
  - 2 ^ 63 <= licenses.valid_days r < 2 ^ 63.
Proof.
  intros Hreach.
  assert (Hall : map_Forall (fun _ => row_domain_ok) db).
  { induction Hreach as [|db o _ IH]; [apply map_Forall_empty|].
    apply db_after_rows; [| | exact IH].
    - intros days now note. apply row_domain_inserted.
    - intros hwid now r0. apply row_domain_activated. }
  intros Hk. destruct (Hall k r Hk) as [Hu Hfit]. split; [done|].
  unfold sqlite3.fits_int64 in Hfit. apply andb_true_iff in Hfit. lia.
Qed.

Lemma reachable_row_domains_witness :
  reachable sample_bound_db /\
  sample_bound_db !! "K0" = Some sample_bound_row /\
  (licenses.is_used sample_bound_row = 0 \/ licenses.is_used sample_bound_row = 1) /\
  - 2 ^ 63 <= licenses.valid_days sample_bound_row < 2 ^ 63.
Proof.
  assert (Hreach : reachable sample_bound_db).
  { unfold sample_bound_db. apply reachable_op.
    change sample_db
      with (db_after (Generate sample_env main.ADMIN_PASSWORD 2 30 "acme") ∅).
    apply reachable_op, reachable_init. }
  split; [exact Hreach |]. split; [vm_compute; reflexivity |].
  apply (reachable_row_domains sample_bound_db "K0" sample_bound_row Hreach).
  vm_compute; reflexivity.
Defined.

(** ** From issuing to activation *)

(** X19: the life of a generated key.  After a batch was issued (right
    password, [days] within range, drawn keys distinct and new), the first
    activation of any key of the batch, from any machine at any time,
    replies with status ["success"] and the [days] of the batch and binds
    the record to that machine; from then on the same machine gets the same
    reply with the welcome-back message, and every other machine gets the
    403 error, without any further change. *)
Theorem generated_key_lifecycle (e : env) (count days : Z) (note : string)
    (db : table) (j : nat) (m t1 t2 : string) :
  sqlite3.fits_int64 days = true ->
  NoDup (keys_from e 0 (Z.to_nat count)) ->
  (forall k, k ∈ keys_from e 0 (Z.to_nat count) -> db !! k = None) ->
  (j < Z.to_nat count)%nat ->
  let k := upper (uuid4 e j) in
  let db1 := db_after (Generate e main.ADMIN_PASSWORD count days note) db in
  let db2 := <[k := licenses.mkRow 1 (Some m) (now e j) days (Some t1) note]> db1 in
  sqlite3.run (main.activate t1 (main.mkReq k m)) db1 =
    (Return [("status", JStr "success"); ("msg", JStr main.msg_activated);
             ("days", JInt days)], db2,
     [sqlite3.EvConnect; sqlite3.EvSelect k; sqlite3.EvUpdate k;
      sqlite3.EvCommit; sqlite3.EvClose]) /\
  (sqlite3.run (main.activate t2 (main.mkReq k m)) db2).1 =
    (Return [("status", JStr "success"); ("msg", JStr main.msg_welcome_back);
             ("days", JInt days)], db2) /\
  forall m', m' <> m ->
    (sqlite3.run (main.activate t2 (main.mkReq k m')) db2).1 =
    (Raise (HTTPException 403 main.detail_other_device), db2).
Proof.
  intros Hfit Hnd Hfresh Hj k db1 db2.
  assert (Hdb1 : db1 !! k = Some (sqlite3.inserted_row days (now e j) note)).
  { subst db1 k. unfold db_after.
    destruct (generate_license_inserts e count days note db Hfit Hnd Hfresh)
      as [tr ->]. cbn [fst snd].
    by apply (insert_batch_lookup e days note _ 0 db j). }
  assert (Hdb2 : db2 !! k = Some (licenses.mkRow 1 (Some m) (now e j) days
                                    (Some t1) note)).
  { apply lookup_insert_eq. }
  split; [|split].
  - by rewrite (activate_first db1 t1 k m _ Hdb1).
  - by rewrite (activate_again db2 t2 k m _ Hdb2).
  - intros m' Hne. rewrite (activate_other db2 t2 k m' _ Hdb2); [done|done|].
    cbn. congruence.
Qed.

Lemma generated_key_lifecycle_witness :
  sqlite3.fits_int64 30 = true /\
  (1 < Z.to_nat 2)%nat /\
  let k := upper (uuid4 sample_env 1) in
  let db1 := db_after (Generate sample_env main.ADMIN_PASSWORD 2 30 "acme") ∅ in
  let db2 := <[k := licenses.mkRow 1 (Some "m7") (now sample_env 1) 30
                      (Some "2026-05-05T05:05:05") "acme"]> db1 in
  sqlite3.run (main.activate "2026-05-05T05:05:05" (main.mkReq k "m7")) db1 =
    (Return [("status", JStr "success"); ("msg", JStr main.msg_activated);
             ("days", JInt 30)], db2,
     [sqlite3.EvConnect; sqlite3.EvSelect k; sqlite3.EvUpdate k;
      sqlite3.EvCommit; sqlite3.EvClose]) /\
  (sqlite3.run (main.activate "2026-06-06T06:06:06" (main.mkReq k "m7")) db2).1 =
    (Return [("status", JStr "success"); ("msg", JStr main.msg_welcome_back);
             ("days", JInt 30)], db2) /\
  forall m', m' <> "m7" ->
    (sqlite3.run (main.activate "2026-06-06T06:06:06" (main.mkReq k m')) db2).1 =
    (Raise (HTTPException 403 main.detail_other_device), db2).
Proof.
  split; [reflexivity |]. split; [vm_compute; lia |].
  apply (generated_key_lifecycle sample_env 2 30 "acme" ∅ 1 "m7"
           "2026-05-05T05:05:05" "2026-06-06T06:06:06");
    [reflexivity | | | vm_compute; lia].
  - apply (bool_decide_unpack _). by vm_compute.
  - intros k _. apply lookup_empty.
Defined.

Lemma db_after_activate_other (db : table) now req k :
  k <> main.key req -> db_after (Activate now req) db !! k = db !! k.
Proof.
  intros Hne. unfold db_after. rewrite activate_run_cases.
  destruct (db !! main.key req) as [row|]; [|done].
  destruct (decide (licenses.is_used row = 1)); [by destruct (decide _)|].
  cbn. by rewrite lookup_insert_ne.
Qed.

Lemma activate_all_cons now req calls (db : table) :
  activate_all ((now, req) :: calls) db =
  ((sqlite3.run (main.activate now req) db).1.1
     :: (activate_all calls (db_after (Activate now req) db)).1,
   (activate_all calls (db_after (Activate now req) db)).2).
Proof.
  cbn [activate_all db_after].
  destruct (sqlite3.run (main.activate now req) db) as [[r db'] tr]. cbn.
  by destruct (activate_all calls db').
Qed.

Lemma activate_all_other_keys calls (db : table) k :
  k ∉ map (fun c => main.key c.2) calls ->
  (activate_all calls db).2 !! k = db !! k.
Proof.
  revert db. induction calls as [|[now req] calls IH]; intros db Hk; [done|].
  cbn in Hk. apply not_elem_of_cons in Hk as [Hne Hk].
  rewrite activate_all_cons. cbn [snd].
  by rewrite IH, db_after_activate_other.
Qed.

(** X20: activation requests for pairwise different keys, each still
    unused, served one after the other: every one of them gets the reply
    with status ["success"] and [days] the [valid_days] of its record, and
    in the end each record has [is_used = 1], [hwid] the machine of its own
    request and [activated_at] the time of that request, its other columns
    being as before. *)
Theorem activate_all_distinct_keys (calls : list (string * main.ActivationRequest))
    (db : table) :
  NoDup (map (fun c => main.key c.2) calls) ->
  (forall c, c ∈ calls ->
     exists row, db !! main.key c.2 = Some row /\ licenses.is_used row = 0) ->
  forall i now req,
    calls !! i = Some (now, req) ->
    exists row,
      db !! main.key req = Some row /\
      (activate_all calls db).1 !! i =
        Some (Return [("status", JStr "success"); ("msg", JStr main.msg_activated);
                      ("days", JInt (licenses.valid_days row))]) /\
      (activate_all calls db).2 !! main.key req =
        Some (licenses.mkRow 1 (Some (main.hwid req)) (licenses.created_at row)
                (licenses.valid_days row) (Some now) (licenses.note row)).
Proof.
  revert db. induction calls as [|[now0 req0] calls IH]; intros db Hnd Hun i now req Hi;
    [done|].
  cbn in Hnd. apply NoDup_cons in Hnd as [Hnotin Hnd].
  destruct (Hun (now0, req0)) as (row0 & Hrow0 & Hu0); [apply list_elem_of_here|].
  cbn in Hrow0. rewrite activate_all_cons. cbn [fst snd].
  assert (Hfirst : sqlite3.run (main.activate now0 req0) db =
            (Return (main.success main.msg_activated (licenses.valid_days row0)),
             <[main.key req0 := sqlite3.set_activated (main.hwid req0) now0 row0]> db,
             [sqlite3.EvConnect; sqlite3.EvSelect (main.key req0);
              sqlite3.EvUpdate (main.key req0); sqlite3.EvCommit; sqlite3.EvClose])).
  { rewrite activate_run_cases, Hrow0.
    destruct (decide (licenses.is_used row0 = 1)); [lia | done]. }
  unfold db_after. rewrite Hfirst. cbn [fst snd].
  set (db1 := <[main.key req0 := sqlite3.set_activated (main.hwid req0) now0 row0]> db).
  assert (Hother : forall c, c ∈ calls -> main.key c.2 <> main.key req0).
  { intros c Hc Heq. apply Hnotin. rewrite <- Heq.
    by apply (list_elem_of_fmap_2 (fun c => main.key c.2)). }
  assert (Hun1 : forall c, c ∈ calls ->
             exists row, db1 !! main.key c.2 = Some row /\ licenses.is_used row = 0).
  { intros c Hc. destruct (Hun c) as (row & Hrow & Hu); [by apply list_elem_of_further|].
    exists row. split; [|done]. subst db1. rewrite lookup_insert_ne; [done|].
    intros Heq. by apply (Hother c Hc). }
  destruct i as [|i].
  - cbn in Hi. injection Hi as <- <-. exists row0. split; [done|]. split; [done|].
    rewrite activate_all_other_keys by done. subst db1. apply lookup_insert_eq.
  - cbn in Hi. destruct (IH db1 Hnd Hun1 i now req Hi) as (row & Hrow & Hr & Hfin).
    exists row. split; [|done]. subst db1.
    rewrite lookup_insert_ne in Hrow; [done|].
    intros Heq. apply (Hother (now, req)); [|done].
    by apply list_elem_of_lookup_2 in Hi.
Qed.

Lemma activate_all_distinct_keys_witness :
  NoDup (map (fun c : string * main.ActivationRequest => main.key c.2)
           [("2026-02-01T10:00:00", main.mkReq "K0" "m1");
            ("2026-02-02T10:00:00", main.mkReq "K1" "m2")]) /\
  exists row,
    sample_db !! "K1" = Some row /\
    (activate_all [("2026-02-01T10:00:00", main.mkReq "K0" "m1");
                   ("2026-02-02T10:00:00", main.mkReq "K1" "m2")] sample_db).1 !! 1%nat =
      Some (Return [("status", JStr "success"); ("msg", JStr main.msg_activated);
                    ("days", JInt (licenses.valid_days row))]) /\
    (activate_all [("2026-02-01T10:00:00", main.mkReq "K0" "m1");
                   ("2026-02-02T10:00:00", main.mkReq "K1" "m2")] sample_db).2 !! "K1" =
      Some (licenses.mkRow 1 (Some "m2") (licenses.created_at row)
              (licenses.valid_days row) (Some "2026-02-02T10:00:00")
              (licenses.note row)).
Proof.
  assert (Hnd : NoDup (map (fun c : string * main.ActivationRequest => main.key c.2)
                         [("2026-02-01T10:00:00", main.mkReq "K0" "m1");
                          ("2026-02-02T10:00:00", main.mkReq "K1" "m2")])).
  { apply (bool_decide_unpack _). by vm_compute. }
  split; [exact Hnd |].
  refine (activate_all_distinct_keys _ sample_db Hnd _ 1%nat
            "2026-02-02T10:00:00" (main.mkReq "K1" "m2") eq_refl).
  intros c Hc. apply elem_of_cons in Hc as [->|Hc].
  - eexists. split; [vm_compute; reflexivity | reflexivity].
  - apply list_elem_of_singleton in Hc as ->.
    eexists. split; [vm_compute; reflexivity | reflexivity].
Defined.

(** ** The form of the keys *)

Lemma upper_ascii_not_lowercase c : ~ lowercase (upper_ascii c).
Proof.
  unfold lowercase.
  destruct c as [[] [] [] [] [] [] [] []]; vm_compute; lia.
Qed.

Lemma upper_no_lowercase s c :
  In c (list_ascii_of_string (upper s)) -> ~ lowercase c.
Proof.
  induction s as [|a s IH]; cbn; [done|].
  intros [<-|Hin]; [apply upper_ascii_not_lowercase | by apply IH].
Qed.

(** X21: no key that [generate_license] puts on its page contains a
    lower-case ASCII letter. *)
Theorem generated_keys_upper_case (e : env) (count days : Z) (note : string)
    (db db' : table) (keys : list string) (sc : Z) (tr : list sqlite3.db_event) :
  sqlite3.run (main.generate_license e main.ADMIN_PASSWORD count days note) db =
    (Return (main.mkHTML (main.Generated count keys) sc), db', tr) ->
  forall k c, k ∈ keys -> In c (list_ascii_of_string k) -> ~ lowercase c.
Proof.
  rewrite generate_license_run.
  pose proof (generate_loop_cases e days note (Z.to_nat count)
                (sqlite3.mkState db None [sqlite3.EvConnect]) eq_refl) as [_ Hc].
  cbn in Hc. destruct (sqlite3.exec _ _) as [[ks|ex] s']; [|done].
  destruct Hc as [[ex Hex]|(Hks & _)]; [done|].
  cbn in Hks. injection Hks as ->. intros [= <- _ _ _] k c Hk.
  unfold keys_from in Hk. apply list_elem_of_fmap in Hk as (j & -> & _).
  apply upper_no_lowercase.
Qed.

Lemma generated_keys_upper_case_witness :
  "K0" ∈ ["K0"; "K1"] /\
  In "K"%char (list_ascii_of_string "K0") /\
  ~ lowercase "K"%char.
Proof.
  assert (Hk : "K0" ∈ ["K0"; "K1"]) by apply list_elem_of_here.
  assert (Hc : In "K"%char (list_ascii_of_string "K0")) by (left; reflexivity).
  split; [exact Hk |]. split; [exact Hc |].
  refine (generated_keys_upper_case sample_env 2 30 "acme" ∅ sample_db
            ["K0"; "K1"] 200
            [sqlite3.EvConnect; sqlite3.EvInsert "K0"; sqlite3.EvInsert "K1";
             sqlite3.EvCommit; sqlite3.EvClose] _ "K0" "K"%char Hk Hc).
  vm_compute. reflexivity.
Defined.

(** ** A batch that fails *)



(** ** Several worker processes *)

(** X23: however the database calls of several worker processes serving
    activations interleave, every record of the database file keeps
    [hwid] and [activated_at] both unset exactly when [is_used] is 0 and
    both set exactly when it is 1. *)
Theorem interleaved_workers_keep_rows_ok (c c' : server.cluster) :
  cluster_ok c ->
  rtc server.worker_step c c' ->
  forall k r, server.file c' !! k = Some r -> row_ok r.
Proof.
  intros Hok Hsteps.
  assert (Hok' : cluster_ok c').
  { induction Hsteps as [|c1 c2 c3 Hstep _ IH]; [done|].
    apply IH. by apply (worker_step_ok c1). }
  by destruct Hok'.
Qed.

Lemma interleaved_workers_keep_rows_ok_witness :
  cluster_ok race_start /\
  forall final,
    server.worker_run [0; 0; 1; 1; 0; 0; 0; 1; 1; 1]%nat race_start = Some final ->
    forall k r, server.file final !! k = Some r -> row_ok r.
Proof.
  assert (Hok : cluster_ok race_start).
  { split; cbn.
    - apply (run_ok _ ∅). by intros k r.
    - apply Forall_cons. split; [intros t Ht; discriminate Ht|].
      apply Forall_cons. split; [intros t Ht; discriminate Ht|]. constructor. }
  split; [exact Hok |].
  intros final Hfinal.
  apply (interleaved_workers_keep_rows_ok race_start final Hok).
  by apply (worker_run_steps [0; 0; 1; 1; 0; 0; 0; 1; 1; 1]%nat).
Defined.


(** ** Many requests for one key *)



